(** * TURN allocation lifecycle of tinyNET (tnet_turn.c)

    A shallow embedding of [tnet_turn_send_allocate], [tnet_turn_allocate],
    [tnet_turn_unallocate] and of the allocation constructor, followed by the
    properties of the allocation lifecycle.

    Conventions.
    - C integers are [Z]; a store into a fixed-width unsigned field wraps
      explicitly ([uint32], [wrap_id]).
    - A [char*] is an [option string]: [None] is the NULL pointer.
    - Allocation objects live in a heap keyed by address; the registry of a
      context holds addresses, as the C list holds pointers.
    - Everything the file does not contain (message layer, transport, random
      strings, digest, byte order of the host) is gathered in the [Platform]
      class and in the [world] record. *)

From Stdlib Require Import ZArith Lia.
From stdpp Require Import base option list strings pretty gmap.

#[local] Open Scope Z_scope.

(** ** Platform parameters *)

(** What the headers and the host fix, and this file only uses. *)
Class Platform := {
  (** number of bits of [tnet_turn_allocation_id_t] *)
  ID_BITS : Z;
  ID_BITS_pos : 0 < ID_BITS;
  (** [TNET_TURN_INVALID_ALLOCATION_ID] *)
  TNET_TURN_INVALID_ALLOCATION_ID : Z;
  (** [TNET_STUN_TRANSACID_SIZE], in bytes *)
  TNET_STUN_TRANSACID_SIZE : nat;
  (** [TSK_MD5_DIGEST_CALC]: the digest bytes of a buffer *)
  TSK_MD5_DIGEST_CALC : string → list Z;
  (** byte order of the host *)
  host_big_endian : bool
}.

(** ** Byte order *)

Definition le_bytes (x : Z) : list Z :=
  [x `mod` 256; (x `div` 256) `mod` 256; (x `div` 65536) `mod` 256;
   (x `div` 16777216) `mod` 256].

Definition be_bytes (x : Z) : list Z := reverse (le_bytes x).

Definition of_le_bytes (bs : list Z) : Z :=
  foldr (λ b acc, b + 256 * acc) 0 bs.

Definition of_be_bytes (bs : list Z) : Z := of_le_bytes (reverse bs).

(** The four bytes a 32-bit word occupies in the memory of the host. *)
Definition host_bytes `{Platform} (x : Z) : list Z :=
  if host_big_endian then be_bytes x else le_bytes x.

Definition of_host_bytes `{Platform} (bs : list Z) : Z :=
  if host_big_endian then of_be_bytes bs else of_le_bytes bs.

(** [ntohl], the function the source calls: the bytes of the word, as they lie
    in memory, read as a big-endian number. *)
Definition ntohl `{Platform} (x : Z) : Z := of_be_bytes (host_bytes x).

(** Host-to-network conversion as the specification words it: the word whose
    bytes in memory are the big-endian (network order) bytes of [x]. *)
Definition host_to_network `{Platform} (x : Z) : Z := of_host_bytes (be_bytes x).

Definition uint32 (x : Z) : Z := x `mod` 2 ^ 32.

(** ** Data model *)

(** Modelled from the spec: [tnet_socket_type_t] and the macro
    [TNET_SOCKET_TYPE_IS_DGRAM] are declared in a header that is not part of
    the file; the transport kind is "datagram or stream". *)
Inductive tnet_socket_type_t := socket_dgram | socket_stream.

Definition TNET_SOCKET_TYPE_IS_DGRAM (t : tnet_socket_type_t) : bool :=
  match t with socket_dgram => true | socket_stream => false end.

Inductive tnet_proto_t := TNET_PROTO_UDP | TNET_PROTO_TCP.

Inductive tnet_stun_message_type_t := stun_allocate_request | stun_refresh_request.

(** The attribute objects the source creates, by constructor macro. *)
Inductive tnet_stun_attribute_t :=
| STUN_ATTRIBUTE_SOFTWARE (software : string) (len : nat)
| TURN_ATTRIBUTE_REQTRANS (proto : tnet_proto_t)
| TURN_ATTRIBUTE_LIFETIME (lifetime : Z)
| TURN_ATTRIBUTE_EVEN_PORT (r : bool).

(** [struct sockaddr_storage] filled by [tnet_sockaddr_init]. *)
Record tnet_sockaddr := {
  sa_address : option string;
  sa_port : Z;
  sa_type : tnet_socket_type_t
}.

Record tnet_stun_request_t := {
  req_username : option string;
  req_password : option string;
  req_fingerprint : bool;
  req_integrity : bool;
  req_dontfrag : bool;
  req_realm : option string;
  req_nonce : option string;
  req_type : tnet_stun_message_type_t;
  req_transaction_id : list Z;
  req_attributes : list tnet_stun_attribute_t
}.

(** A response is known to this file through five accessors only; the record
    holds what each of them returns. *)
Record tnet_stun_response_t := {
  TNET_STUN_RESPONSE_IS_ERROR : bool;
  tnet_stun_message_get_errorcode : Z;          (* short *)
  tnet_stun_message_get_realm : option string;
  tnet_stun_message_get_nonce : option string;
  tnet_stun_message_get_lifetime : Z            (* int32_t *)
}.

Definition int32_range (x : Z) : Prop := - 2 ^ 31 ≤ x < 2 ^ 31.

Record tnet_turn_allocation_t := {
  alloc_id : Z;
  alloc_localFD : Z;
  alloc_socket_type : tnet_socket_type_t;
  alloc_server : tnet_sockaddr;
  alloc_username : option string;
  alloc_password : option string;
  alloc_realm : option string;
  alloc_nonce : option string;
  alloc_timeout : Z;                            (* uint32_t *)
  alloc_relay_address : option string;
  alloc_software : option string;
  alloc_active : bool
}.

(** Field stores, one per field the lifecycle functions assign. *)
Definition set_realm (v : option string) (a : tnet_turn_allocation_t) :=
  {| alloc_id := alloc_id a; alloc_localFD := alloc_localFD a;
     alloc_socket_type := alloc_socket_type a; alloc_server := alloc_server a;
     alloc_username := alloc_username a; alloc_password := alloc_password a;
     alloc_realm := v; alloc_nonce := alloc_nonce a;
     alloc_timeout := alloc_timeout a;
     alloc_relay_address := alloc_relay_address a;
     alloc_software := alloc_software a; alloc_active := alloc_active a |}.

Definition set_nonce (v : option string) (a : tnet_turn_allocation_t) :=
  {| alloc_id := alloc_id a; alloc_localFD := alloc_localFD a;
     alloc_socket_type := alloc_socket_type a; alloc_server := alloc_server a;
     alloc_username := alloc_username a; alloc_password := alloc_password a;
     alloc_realm := alloc_realm a; alloc_nonce := v;
     alloc_timeout := alloc_timeout a;
     alloc_relay_address := alloc_relay_address a;
     alloc_software := alloc_software a; alloc_active := alloc_active a |}.

Definition set_timeout (v : Z) (a : tnet_turn_allocation_t) :=
  {| alloc_id := alloc_id a; alloc_localFD := alloc_localFD a;
     alloc_socket_type := alloc_socket_type a; alloc_server := alloc_server a;
     alloc_username := alloc_username a; alloc_password := alloc_password a;
     alloc_realm := alloc_realm a; alloc_nonce := alloc_nonce a;
     alloc_timeout := v;
     alloc_relay_address := alloc_relay_address a;
     alloc_software := alloc_software a; alloc_active := alloc_active a |}.

Definition set_software (v : option string) (a : tnet_turn_allocation_t) :=
  {| alloc_id := alloc_id a; alloc_localFD := alloc_localFD a;
     alloc_socket_type := alloc_socket_type a; alloc_server := alloc_server a;
     alloc_username := alloc_username a; alloc_password := alloc_password a;
     alloc_realm := alloc_realm a; alloc_nonce := alloc_nonce a;
     alloc_timeout := alloc_timeout a;
     alloc_relay_address := alloc_relay_address a;
     alloc_software := v; alloc_active := alloc_active a |}.

Definition set_active (v : bool) (a : tnet_turn_allocation_t) :=
  {| alloc_id := alloc_id a; alloc_localFD := alloc_localFD a;
     alloc_socket_type := alloc_socket_type a; alloc_server := alloc_server a;
     alloc_username := alloc_username a; alloc_password := alloc_password a;
     alloc_realm := alloc_realm a; alloc_nonce := alloc_nonce a;
     alloc_timeout := alloc_timeout a;
     alloc_relay_address := alloc_relay_address a;
     alloc_software := alloc_software a; alloc_active := v |}.

(** Address of an allocation object. *)
Definition addr := positive.

(** [tnet_nat_context_t], the fields the file reads; [ctx_allocations] is the
    list of pointers to the registered allocations. *)
Record tnet_nat_context_t := {
  ctx_socket_type : tnet_socket_type_t;
  ctx_server_address : option string;
  ctx_server_port : Z;
  ctx_username : option string;
  ctx_password : option string;
  ctx_software : option string;
  ctx_enable_fingerprint : bool;
  ctx_enable_integrity : bool;
  ctx_enable_dontfrag : bool;
  ctx_enable_evenport : bool;
  ctx_allocations : list addr
}.

Definition set_allocations (l : list addr) (c : tnet_nat_context_t) :=
  {| ctx_socket_type := ctx_socket_type c;
     ctx_server_address := ctx_server_address c;
     ctx_server_port := ctx_server_port c;
     ctx_username := ctx_username c; ctx_password := ctx_password c;
     ctx_software := ctx_software c;
     ctx_enable_fingerprint := ctx_enable_fingerprint c;
     ctx_enable_integrity := ctx_enable_integrity c;
     ctx_enable_dontfrag := ctx_enable_dontfrag c;
     ctx_enable_evenport := ctx_enable_evenport c;
     ctx_allocations := l |}.

(** ** The world outside the file *)

(** One call of [tnet_stun_send_unreliably]: its five arguments. *)
Record exchange := {
  x_localFD : Z;
  x_rto : Z;
  x_rc : Z;
  x_request : tnet_stun_request_t;
  x_server : tnet_sockaddr
}.

(** The world outside the file: what each call of the random source yields,
    what the peer answers to a request given everything sent before, and the
    log of the calls of the transport, newest first. *)
Record world := {
  random_source : nat → string;
  random_calls : nat;
  peer : list exchange → option tnet_stun_response_t;
  sent : list exchange
}.

(** Modelled from the spec: [tsk_strrandom] belongs to another library of the
    repository; it yields "a freshly generated random string".  Each call
    takes the next string of the random source of the world. *)
Definition tsk_strrandom (w : world) : string * world :=
  (random_source w (random_calls w),
   {| random_source := random_source w; random_calls := S (random_calls w);
      peer := peer w; sent := sent w |}).

(** Modelled from the spec: [tnet_stun_send_unreliably] belongs to the
    message layer, which is not part of the file; it is "a blocking
    send-with-retransmission primitive parameterized by initial timeout and
    maximum attempt count, returning a response object or none".  The call is
    logged and the peer of the world decides the answer. *)
Definition tnet_stun_send_unreliably (localFD rto rc : Z)
    (request : tnet_stun_request_t) (server : tnet_sockaddr) (w : world)
  : option tnet_stun_response_t * world :=
  let log := {| x_localFD := localFD; x_rto := rto; x_rc := rc;
                x_request := request; x_server := server |} :: sent w in
  (peer w log,
   {| random_source := random_source w; random_calls := random_calls w;
      peer := peer w; sent := log |}).

(** The state of the process: the function-local static [__unique_id] of the
    allocation constructor, the live allocation objects, and the world. *)
Record process := {
  unique_id : Z;
  objects : gmap addr tnet_turn_allocation_t;
  env : world
}.

(** Result of a run: a value, or fuel exhausted, or a dereference of a pointer
    to no live object. *)
Inductive outcome (A : Type) :=
| Ret (a : A)
| OutOfFuel
| Undefined.
Arguments Ret {A} a.
Arguments OutOfFuel {A}.
Arguments Undefined {A}.

(** ** The functions of tnet_turn.c *)

Section Turn.
Context `{Platform}.

(** [tsk_strdup]: a copy of the string, NULL for NULL. *)
Definition tsk_strdup (s : option string) : option string := s.

(** [tsk_strupdate(&allocation->nonce, nonce)] and
    [tsk_strupdate(&allocation->realm, realm)]: the field is freed and set to
    a copy of the new value. *)
Definition tsk_strupdate_nonce (nonce : string) (a : tnet_turn_allocation_t) :=
  set_nonce (tsk_strdup (Some nonce)) a.

Definition tsk_strupdate_realm (realm : string) (a : tnet_turn_allocation_t) :=
  set_realm (tsk_strdup (Some realm)) a.

Definition tnet_stun_message_add_attribute (request : tnet_stun_request_t)
    (attribute : tnet_stun_attribute_t) : tnet_stun_request_t :=
  {| req_username := req_username request; req_password := req_password request;
     req_fingerprint := req_fingerprint request;
     req_integrity := req_integrity request;
     req_dontfrag := req_dontfrag request;
     req_realm := req_realm request; req_nonce := req_nonce request;
     req_type := req_type request;
     req_transaction_id := req_transaction_id request;
     req_attributes := req_attributes request ++ [attribute] |}.

(** Lines 61-105 of [tnet_turn_send_allocate]: the request of one attempt. *)
Definition build_request (context : tnet_nat_context_t)
    (allocation : tnet_turn_allocation_t) (w : world)
  : tnet_stun_request_t * world :=
  (* Create random transaction id *)
  let '(random, w) := tsk_strrandom w in
  let digest := TSK_MD5_DIGEST_CALC random in
  let request :=
    {| req_username := ctx_username context;
       req_password := ctx_password context;
       req_fingerprint := ctx_enable_fingerprint context;
       req_integrity := ctx_enable_integrity context;
       req_dontfrag := ctx_enable_dontfrag context;
       req_realm := tsk_strdup (alloc_realm allocation);
       req_nonce := tsk_strdup (alloc_nonce allocation);
       req_type := if alloc_active allocation
                   then stun_refresh_request else stun_allocate_request;
       req_transaction_id := take TNET_STUN_TRANSACID_SIZE digest;
       req_attributes := [] |} in
  (* Add software attribute *)
  let request :=
    match alloc_software allocation with
    | Some software =>
        tnet_stun_message_add_attribute request
          (STUN_ATTRIBUTE_SOFTWARE software (String.length software))
    | None => request
    end in
  (* Add Requested transport. *)
  let request :=
    tnet_stun_message_add_attribute request
      (TURN_ATTRIBUTE_REQTRANS
         (if TNET_SOCKET_TYPE_IS_DGRAM (alloc_socket_type allocation)
          then TNET_PROTO_UDP else TNET_PROTO_TCP)) in
  (* Add lifetime *)
  let request :=
    tnet_stun_message_add_attribute request
      (TURN_ATTRIBUTE_LIFETIME (ntohl (alloc_timeout allocation))) in
  (* Add Event Port *)
  let request :=
    tnet_stun_message_add_attribute request
      (TURN_ATTRIBUTE_EVEN_PORT (ctx_enable_evenport context)) in
  (request, w).

(** [tnet_turn_send_allocate].  The C function calls itself to retry; [fuel]
    bounds the depth of that recursion.  The result is the returned [int], the
    allocation as the call leaves it, and the world. *)
Fixpoint tnet_turn_send_allocate (fuel : nat) (context : tnet_nat_context_t)
    (allocation : tnet_turn_allocation_t) (w : world)
  : outcome (Z * tnet_turn_allocation_t * world) :=
  match fuel with
  | O => OutOfFuel
  | S fuel =>
    let '(request, w) := build_request context allocation w in
    if TNET_SOCKET_TYPE_IS_DGRAM (alloc_socket_type allocation) then
      let '(response, w) :=
        tnet_stun_send_unreliably (alloc_localFD allocation) 500 7 request
          (alloc_server allocation) w in
      match response with
      | Some response =>
        if TNET_STUN_RESPONSE_IS_ERROR response then
          let code := tnet_stun_message_get_errorcode response in
          let realm := tnet_stun_message_get_realm response in
          let nonce := tnet_stun_message_get_nonce response in
          match code =? 401, realm, nonce with
          | true, Some realm, Some nonce =>
            match alloc_nonce allocation with
            | None =>
              (* First time we get a nonce *)
              let allocation := tsk_strupdate_nonce nonce allocation in
              let allocation := tsk_strupdate_realm realm allocation in
              (* Send again using new transaction identifier *)
              tnet_turn_send_allocate fuel context allocation w
            | Some _ => Ret (-3, allocation, w)
            end
          | _, _, _ => Ret (-2, allocation, w)
          end
        else
          let lifetime := tnet_stun_message_get_lifetime response in
          let allocation :=
            if 0 <=? lifetime
            then set_timeout (uint32 lifetime) allocation else allocation in
          Ret (0, allocation, w)
      | None => Ret (-4, allocation, w)
      end
    else Ret (-1, allocation, w)
  end.

Definition wrap_id (x : Z) : Z := x `mod` 2 ^ ID_BITS.

(** [tnet_turn_allocation_create], on the zeroed object [tsk_object_new]
    hands to the constructor.  Returns the object and the new value of the
    static counter. *)
Definition tnet_turn_allocation_create (counter : Z) (localFD : Z)
    (socket_type : tnet_socket_type_t) (server_address : option string)
    (server_port : Z) (username password : option string)
  : tnet_turn_allocation_t * Z :=
  let counter := wrap_id (counter + 1) in
  ({| alloc_id := counter;
      alloc_localFD := localFD;
      alloc_socket_type := socket_type;
      alloc_server := {| sa_address := server_address; sa_port := server_port;
                         sa_type := socket_type |};
      alloc_username := tsk_strdup username;
      alloc_password := tsk_strdup password;
      alloc_realm := None;
      alloc_nonce := None;
      alloc_timeout := 600;
      alloc_relay_address := None;
      alloc_software := None;
      alloc_active := false |}, counter).

(** [tnet_turn_allocation_destroy]: every string the object owns is freed,
    which leaves NULL in its field; the object itself is released by the
    caller of the destructor. *)
Definition tnet_turn_allocation_destroy (a : tnet_turn_allocation_t)
  : tnet_turn_allocation_t :=
  {| alloc_id := alloc_id a; alloc_localFD := alloc_localFD a;
     alloc_socket_type := alloc_socket_type a; alloc_server := alloc_server a;
     alloc_username := None; alloc_password := None;
     alloc_realm := None; alloc_nonce := None;
     alloc_timeout := alloc_timeout a;
     alloc_relay_address := None;
     alloc_software := None; alloc_active := alloc_active a |}.

(** [TSK_OBJECT_SAFE_FREE] on the only reference to an allocation: the
    destructor runs and the object is no longer live. *)
Definition TSK_OBJECT_SAFE_FREE (ptr : addr)
    (objs : gmap addr tnet_turn_allocation_t)
  : gmap addr tnet_turn_allocation_t :=
  delete ptr (alter tnet_turn_allocation_destroy ptr objs).

(** [tsk_object_new]: a fresh address for the new object. *)
Definition new_addr (objs : gmap addr tnet_turn_allocation_t) : addr :=
  fresh (dom objs : gset addr).

(** Modelled from the spec: [tsk_list_push_back_data] belongs to the generic
    list of another library; "append-at-tail (transfers ownership of the
    appended record to the registry)". *)
Definition tsk_list_push_back_data (l : list addr) (data : addr) : list addr :=
  l ++ [data].

(** [tnet_turn_allocate].  [nat_context] is [None] for a NULL context.  The
    result is the returned id, the context (its registry possibly longer) and
    the process. *)
Definition tnet_turn_allocate (fuel : nat)
    (nat_context : option tnet_nat_context_t) (localFD : Z)
    (socket_type : tnet_socket_type_t) (p : process)
  : outcome (Z * option tnet_nat_context_t * process) :=
  let id := TNET_TURN_INVALID_ALLOCATION_ID in
  match nat_context with
  | Some context =>
    let '(allocation, counter) :=
      tnet_turn_allocation_create (unique_id p) localFD
        (ctx_socket_type context) (ctx_server_address context)
        (ctx_server_port context) (ctx_username context)
        (ctx_password context) in
    let ptr := new_addr (objects p) in
    let objs := <[ptr := allocation]> (objects p) in
    let allocation := set_software (tsk_strdup (ctx_software context)) allocation in
    let objs := <[ptr := allocation]> objs in
    match tnet_turn_send_allocate fuel context allocation (env p) with
    | Ret (ret, allocation, w) =>
      (* the round has written through the pointer *)
      let objs := <[ptr := allocation]> objs in
      if negb (ret =? 0) then
        Ret (id, Some context,
             {| unique_id := counter; objects := TSK_OBJECT_SAFE_FREE ptr objs;
                env := w |})
      else
        let id := alloc_id allocation in
        let allocation := set_active true allocation in
        Ret (id,
             Some (set_allocations
                     (tsk_list_push_back_data (ctx_allocations context) ptr)
                     context),
             {| unique_id := counter;
                objects := <[ptr := allocation]> objs; env := w |})
    | OutOfFuel => OutOfFuel
    | Undefined => Undefined
    end
  | None => Ret (id, None, p)
  end.

(** Modelled from the spec: [tsk_list_remove_item_by_data] belongs to the
    generic list of another library; "remove-by-value (transfers ownership
    back to the caller)".  The first item holding the pointer leaves the list
    and the object stays live. *)
Fixpoint tsk_list_remove_item_by_data (l : list addr) (data : addr) : list addr :=
  match l with
  | [] => []
  | x :: l' => if decide (x = data) then l' else x :: tsk_list_remove_item_by_data l' data
  end.

(** [tnet_turn_unallocate].  [allocation] is [None] for a NULL pointer. *)
Definition tnet_turn_unallocate (fuel : nat)
    (nat_context : option tnet_nat_context_t) (allocation : option addr)
    (p : process)
  : outcome (Z * option tnet_nat_context_t * process) :=
  match nat_context, allocation with
  | Some context, Some ptr =>
    match objects p !! ptr with
    | Some a =>
      let timeout := uint32 (alloc_timeout a) in (* Save timeout. *)
      let a := set_timeout 0 a in
      match tnet_turn_send_allocate fuel context a (env p) with
      | Ret (ret, a, w) =>
        if negb (ret =? 0) then
          let a := set_timeout timeout a in (* Restore timeout *)
          Ret (-1, Some context,
               {| unique_id := unique_id p;
                  objects := <[ptr := a]> (objects p); env := w |})
        else
          Ret (0,
               Some (set_allocations
                       (tsk_list_remove_item_by_data (ctx_allocations context) ptr)
                       context),
               {| unique_id := unique_id p;
                  objects := <[ptr := a]> (objects p); env := w |})
      | OutOfFuel => OutOfFuel
      | Undefined => Undefined
      end
    | None => Undefined
    end
  | _, _ => Ret (-1, nat_context, p)
  end.

End Turn.

(** ** One attempt, named piece by piece *)

Section Attempt.
Context `{Platform}.

(** The request the next attempt builds. *)
Definition attempt_request (context : tnet_nat_context_t)
    (a : tnet_turn_allocation_t) (w : world) : tnet_stun_request_t :=
  (build_request context a w).1.

(** The call of the transport the next attempt makes on a datagram socket. *)
Definition attempt_exchange (context : tnet_nat_context_t)
    (a : tnet_turn_allocation_t) (w : world) : exchange :=
  {| x_localFD := alloc_localFD a; x_rto := 500; x_rc := 7;
     x_request := attempt_request context a w; x_server := alloc_server a |}.

(** What the peer answers to it. *)
Definition attempt_reply (context : tnet_nat_context_t)
    (a : tnet_turn_allocation_t) (w : world) : option tnet_stun_response_t :=
  peer w (attempt_exchange context a w :: sent w).

(** The world once the attempt has sent its request. *)
Definition after_attempt (context : tnet_nat_context_t)
    (a : tnet_turn_allocation_t) (w : world) : world :=
  {| random_source := random_source w; random_calls := S (random_calls w);
     peer := peer w; sent := attempt_exchange context a w :: sent w |}.

(** A 401 error carrying both realm and nonce. *)
Definition challenge (r : tnet_stun_response_t) : option (string * string) :=
  if TNET_STUN_RESPONSE_IS_ERROR r && (tnet_stun_message_get_errorcode r =? 401)
  then match tnet_stun_message_get_realm r, tnet_stun_message_get_nonce r with
       | Some realm, Some nonce => Some (realm, nonce)
       | _, _ => None
       end
  else None.

(** The record after a challenge has been cached onto it. *)
Definition cache_challenge (realm nonce : string) (a : tnet_turn_allocation_t) :=
  tsk_strupdate_realm realm (tsk_strupdate_nonce nonce a).

End Attempt.

(** ** Vocabulary of the statements *)

(** [a'] is [a] up to the three fields a round negotiates: the cached realm
    and nonce and the stored timeout. *)
Definition negotiated_only (a a' : tnet_turn_allocation_t) : Prop :=
  alloc_id a' = alloc_id a
  ∧ alloc_localFD a' = alloc_localFD a
  ∧ alloc_socket_type a' = alloc_socket_type a
  ∧ alloc_server a' = alloc_server a
  ∧ alloc_username a' = alloc_username a
  ∧ alloc_password a' = alloc_password a
  ∧ alloc_relay_address a' = alloc_relay_address a
  ∧ alloc_software a' = alloc_software a
  ∧ alloc_active a' = alloc_active a.

Section Vocabulary.
Context `{Platform}.

(** The record [tnet_turn_allocate] creates when the static counter holds
    [counter]: the constructor's object with the software banner of the
    context copied onto it. *)
Definition created_allocation (context : tnet_nat_context_t) (localFD : Z)
    (counter : Z) : tnet_turn_allocation_t :=
  set_software (tsk_strdup (ctx_software context))
    (tnet_turn_allocation_create counter localFD (ctx_socket_type context)
       (ctx_server_address context) (ctx_server_port context)
       (ctx_username context) (ctx_password context)).1.

(** The record as a failed round may leave it: as it was, or, when it held no
    nonce, with the realm and nonce of a challenge cached onto it. *)
Definition restored_up_to_challenge (a a' : tnet_turn_allocation_t) : Prop :=
  a' = a
  ∨ (alloc_nonce a = None
     ∧ ∃ realm nonce, a' = cache_challenge realm nonce a).

(** The ids the constructor assigns to records created one after the other,
    the static counter holding [counter] before the first; each call is the
    context and the descriptor [tnet_turn_allocate] creates the record from. *)
Fixpoint ids_created (counter : Z) (calls : list (tnet_nat_context_t * Z))
  : list Z :=
  match calls with
  | [] => []
  | (context, localFD) :: calls =>
    let '(a, counter) :=
      tnet_turn_allocation_create counter localFD (ctx_socket_type context)
        (ctx_server_address context) (ctx_server_port context)
        (ctx_username context) (ctx_password context) in
    alloc_id a :: ids_created counter calls
  end.

(** The static counter after the same creations. *)
Fixpoint counter_after (counter : Z) (calls : list (tnet_nat_context_t * Z))
  : Z :=
  match calls with
  | [] => counter
  | (context, localFD) :: calls =>
    let '(_, counter) :=
      tnet_turn_allocation_create counter localFD (ctx_socket_type context)
        (ctx_server_address context) (ctx_server_port context)
        (ctx_username context) (ctx_password context) in
    counter_after counter calls
  end.

End Vocabulary.

(** The invariant of the registry: no address twice, and every registered
    address holds a live, active record. *)
Definition registry_ok (context : tnet_nat_context_t) (p : process) : Prop :=
  NoDup (ctx_allocations context)
  ∧ ∀ q, q ∈ ctx_allocations context →
      ∃ a, objects p !! q = Some a ∧ alloc_active a = true.

(** ** A concrete platform and scenarios *)

(** A little-endian host with 64-bit ids, the invalid id 0 and 12-byte
    transaction ids.  The digest is a stand-in that pads the characters of the
    buffer to sixteen bytes: the statements below use of a digest only that
    it is a function. *)
Definition digest_stand_in (s : string) : list Z :=
  take 16 (((λ c, Z.of_nat (Ascii.nat_of_ascii c)) <$> String.list_ascii_of_string s)
           ++ replicate 16 0).

Definition host64 : Platform :=
  {| ID_BITS := 64; ID_BITS_pos := eq_refl;
     TNET_TURN_INVALID_ALLOCATION_ID := 0;
     TNET_STUN_TRANSACID_SIZE := 12;
     TSK_MD5_DIGEST_CALC := digest_stand_in;
     host_big_endian := false |}.

(** A world whose random source is [rand] and whose peer answers the n-th
    request ever sent with the n-th entry of [replies], and nothing once the
    script is over. *)
Definition scripted (rand : nat → string)
    (replies : list (option tnet_stun_response_t)) : world :=
  {| random_source := rand; random_calls := 0;
     peer := λ log, default None (replies !! pred (length log));
     sent := [] |}.

Definition success (lifetime : Z) : tnet_stun_response_t :=
  {| TNET_STUN_RESPONSE_IS_ERROR := false;
     tnet_stun_message_get_errorcode := 0;
     tnet_stun_message_get_realm := None;
     tnet_stun_message_get_nonce := None;
     tnet_stun_message_get_lifetime := lifetime |}.

Definition unauthorized (realm nonce : string) : tnet_stun_response_t :=
  {| TNET_STUN_RESPONSE_IS_ERROR := true;
     tnet_stun_message_get_errorcode := 401;
     tnet_stun_message_get_realm := Some realm;
     tnet_stun_message_get_nonce := Some nonce;
     tnet_stun_message_get_lifetime := -1 |}.

Definition server_error (code : Z) : tnet_stun_response_t :=
  {| TNET_STUN_RESPONSE_IS_ERROR := true;
     tnet_stun_message_get_errorcode := code;
     tnet_stun_message_get_realm := None;
     tnet_stun_message_get_nonce := None;
     tnet_stun_message_get_lifetime := -1 |}.

(** A random source that never repeats, and one that always yields the same
    string. *)
Definition counting_source (n : nat) : string := pretty n.
Definition stuck_source (n : nat) : string := "4711".

Definition ctx0 : tnet_nat_context_t :=
  {| ctx_socket_type := socket_dgram;
     ctx_server_address := Some "turn.example.org";
     ctx_server_port := 3478;
     ctx_username := Some "alice"; ctx_password := Some "secret";
     ctx_software := Some "doubango";
     ctx_enable_fingerprint := true; ctx_enable_integrity := true;
     ctx_enable_dontfrag := false; ctx_enable_evenport := true;
     ctx_allocations := [] |}.

Definition ctx_stream : tnet_nat_context_t :=
  {| ctx_socket_type := socket_stream;
     ctx_server_address := Some "turn.example.org";
     ctx_server_port := 3478;
     ctx_username := Some "alice"; ctx_password := Some "secret";
     ctx_software := Some "doubango";
     ctx_enable_fingerprint := true; ctx_enable_integrity := true;
     ctx_enable_dontfrag := false; ctx_enable_evenport := true;
     ctx_allocations := [] |}.

(** A fresh record, an active one with the default timeout, and the latter
    registered at address 1. *)
Definition fresh0 : tnet_turn_allocation_t :=
  created_allocation (H := host64) ctx0 3 0.

Definition active0 : tnet_turn_allocation_t := set_active true fresh0.

Definition stream0 : tnet_turn_allocation_t :=
  created_allocation (H := host64) ctx_stream 3 0.

Definition ptr1 : addr := 1%positive.

Definition ctx1 : tnet_nat_context_t := set_allocations [ptr1] ctx0.

Definition process1 (w : world) : process :=
  {| unique_id := 1; objects := {[ ptr1 := active0 ]}; env := w |}.

Definition process0 (w : world) : process :=
  {| unique_id := 0; objects := ∅; env := w |}.

(** Scripts of the peer: an immediate success; a challenge followed by a
    success; a challenge followed by silence. *)
Definition world_success : world :=
  scripted counting_source [Some (success 600)].

Definition world_challenge_success (rand : nat → string) : world :=
  scripted rand
    [Some (unauthorized "example.org" "abc123"); Some (success 3600)].

Definition world_challenge_silence : world :=
  scripted counting_source [Some (unauthorized "example.org" "abc123"); None].

(** The transaction ids of the requests sent so far, oldest last. *)
Definition transaction_ids (w : world) : list (list Z) :=
  (λ x, req_transaction_id (x_request x)) <$> sent w.

(** ** Vocabulary of the further properties *)

(** The code a round returns for the reply that ends it. *)
Definition reply_code (reply : option tnet_stun_response_t) : Z :=
  match reply with
  | None => -4
  | Some r =>
    if TNET_STUN_RESPONSE_IS_ERROR r
    then match challenge r with Some _ => -3 | None => -2 end
    else 0
  end.

(** The record once the reply that ends the round has been read: a reply
    that is not an error and grants a lifetime that is not negative sets the
    timeout. *)
Definition adopt_lifetime (reply : option tnet_stun_response_t)
    (a : tnet_turn_allocation_t) : tnet_turn_allocation_t :=
  match reply with
  | Some r =>
    if TNET_STUN_RESPONSE_IS_ERROR r then a
    else if 0 <=? tnet_stun_message_get_lifetime r
         then set_timeout (uint32 (tnet_stun_message_get_lifetime r)) a
         else a
  | None => a
  end.

(** Whether the first attempt of a round is followed by a second: the record
    holds no nonce and the first reply is a 401 carrying realm and nonce. *)
Definition retry_due `{Platform} (context : tnet_nat_context_t)
    (a : tnet_turn_allocation_t) (w : world) : bool :=
  match alloc_nonce a, attempt_reply context a w with
  | None, Some r => match challenge r with Some _ => true | None => false end
  | _, _ => false
  end.

(** Realm and nonce are cached together. *)
Definition credentials_paired (a : tnet_turn_allocation_t) : Prop :=
  alloc_realm a = None ↔ alloc_nonce a = None.

(** What every call of the transport made for a record looks like. *)
Definition on_the_wire `{Platform} (context : tnet_nat_context_t)
    (a : tnet_turn_allocation_t) (x : exchange) : Prop :=
  x_localFD x = alloc_localFD a
  ∧ x_rto x = 500 ∧ x_rc x = 7
  ∧ x_server x = alloc_server a
  ∧ req_username (x_request x) = ctx_username context
  ∧ req_password (x_request x) = ctx_password context
  ∧ req_fingerprint (x_request x) = ctx_enable_fingerprint context
  ∧ req_integrity (x_request x) = ctx_enable_integrity context
  ∧ req_dontfrag (x_request x) = ctx_enable_dontfrag context
  ∧ (∀ proto, TURN_ATTRIBUTE_REQTRANS proto ∈ req_attributes (x_request x)
              ↔ proto = TNET_PROTO_UDP)
  ∧ (∀ r, TURN_ATTRIBUTE_EVEN_PORT r ∈ req_attributes (x_request x)
          ↔ r = ctx_enable_evenport context)
  ∧ (∀ s n, STUN_ATTRIBUTE_SOFTWARE s n ∈ req_attributes (x_request x)
            ↔ alloc_software a = Some s ∧ n = String.length s)
  ∧ (length (req_transaction_id (x_request x)) ≤ TNET_STUN_TRANSACID_SIZE)%nat.

(** The ids on the heap: every live record has an id between 1 and the
    static counter, and no two live records share an id. *)
Definition heap_ids_ok (p : process) : Prop :=
  0 ≤ unique_id p
  ∧ (∀ q a, objects p !! q = Some a → 0 < alloc_id a ≤ unique_id p)
  ∧ (∀ q1 q2 a1 a2, objects p !! q1 = Some a1 → objects p !! q2 = Some a2 →
       alloc_id a1 = alloc_id a2 → q1 = q2).

(** What holds of every record the lifecycle has created: realm and nonce
    cached together, no relay address, a timeout that fits 32 bits. *)
Definition record_ok (a : tnet_turn_allocation_t) : Prop :=
  credentials_paired a
  ∧ alloc_relay_address a = None
  ∧ 0 ≤ alloc_timeout a < 2 ^ 32.

Definition heap_records_ok (p : process) : Prop :=
  ∀ q a, objects p !! q = Some a → record_ok a.

(** The invariant of a context and a process. *)
Definition lifecycle_inv (s : tnet_nat_context_t * process) : Prop :=
  registry_ok s.1 s.2 ∧ heap_ids_ok s.2 ∧ heap_records_ok s.2.

(** One call of the lifecycle on a context and a process: an Allocate call
    made before the static counter wraps, a round run on a live record
    through its pointer (a refresh), or a Deallocate call. *)
Inductive lifecycle_step `{Platform} (fuel : nat)
  : tnet_nat_context_t * process → tnet_nat_context_t * process → Prop :=
| step_allocate context p localFD socket_type id c' p' :
    unique_id p + 1 < 2 ^ ID_BITS →
    tnet_turn_allocate fuel (Some context) localFD socket_type p
      = Ret (id, Some c', p') →
    lifecycle_step fuel (context, p) (c', p')
| step_refresh context p ptr a ret a' w' :
    objects p !! ptr = Some a →
    tnet_turn_send_allocate fuel context a (env p) = Ret (ret, a', w') →
    lifecycle_step fuel (context, p)
      (context,
       {| unique_id := unique_id p; objects := <[ptr := a']> (objects p);
          env := w' |})
| step_unallocate context p ptr res c' p' :
    tnet_turn_unallocate fuel (Some context) (Some ptr) p
      = Ret (res, Some c', p') →
    lifecycle_step fuel (context, p) (c', p').

(** Further scripts of the peer: a server error; no answer at all; a success
    followed by a success that grants nothing more. *)
Definition world_error : world :=
  scripted counting_source [Some (server_error 500)].

Definition world_silence : world := scripted counting_source [].

Definition world_success_then_release : world :=
  scripted counting_source [Some (success 600); Some (success 0)].

Definition world_release : world :=
  scripted counting_source [Some (success 0)].

Definition world_new_nonce : world :=
  scripted counting_source [Some (unauthorized "example.org" "def456")].

(** An active record on which a challenge has been cached. *)
Definition cached0 : tnet_turn_allocation_t :=
  cache_challenge "example.org" "abc123" active0.

(** A failed round has kept a challenge on a record that held no nonce: the
    first reply to the attempt made with [sent_as] was a 401 error, and its
    realm and nonce are the ones now cached on [a'], which agrees with [a]
    on every other field. *)
Definition challenge_kept `{Platform} (context : tnet_nat_context_t)
    (sent_as : tnet_turn_allocation_t) (w : world)
    (a a' : tnet_turn_allocation_t) : Prop :=
  alloc_nonce a = None
  ∧ ∃ r realm nonce,
      attempt_reply context sent_as w = Some r
      ∧ TNET_STUN_RESPONSE_IS_ERROR r = true
      ∧ tnet_stun_message_get_errorcode r = 401
      ∧ tnet_stun_message_get_realm r = Some realm
      ∧ tnet_stun_message_get_nonce r = Some nonce
      ∧ alloc_realm a' = Some realm
      ∧ alloc_nonce a' = Some nonce
      ∧ negotiated_only a a'
      ∧ alloc_timeout a' = alloc_timeout a
      ∧ a' = cache_challenge realm nonce a.

(** A success that grants no lifetime. *)
Definition world_release_bare : world :=
  scripted counting_source [Some (success (-1))].

(** * Properties *)

(** A round that ends with its first exchange. *)
Ltac single_exchange :=
  do 3 eexists; eexists [_];
  split; [reflexivity|]; split; [reflexivity|]; split; [cbn; lia|].

Section Round.
Context `{Platform}.

(** ** Byte order *)

Lemma ntohl_host_to_network x : ntohl x = host_to_network x.
Proof.
  unfold ntohl, host_to_network, host_bytes, of_host_bytes.
  destruct host_big_endian; reflexivity.
Qed.

Lemma ntohl_0 : ntohl 0 = 0.
Proof. unfold ntohl, host_bytes. destruct host_big_endian; reflexivity. Qed.

(** ** The request of an attempt *)

Lemma build_request_world context a w :
  (build_request context a w).2 =
  {| random_source := random_source w; random_calls := S (random_calls w);
     peer := peer w; sent := sent w |}.
Proof. reflexivity. Qed.

Lemma build_request_eq context a w :
  build_request context a w =
  (attempt_request context a w, (build_request context a w).2).
Proof. unfold attempt_request. by destruct (build_request context a w). Qed.

(** One level of the recursion, in terms of the named pieces. *)
Lemma send_allocate_unfold fuel context a w :
  tnet_turn_send_allocate (S fuel) context a w =
  if TNET_SOCKET_TYPE_IS_DGRAM (alloc_socket_type a) then
    match attempt_reply context a w with
    | None => Ret (-4, a, after_attempt context a w)
    | Some r =>
      if TNET_STUN_RESPONSE_IS_ERROR r then
        match challenge r with
        | Some (realm, nonce) =>
          match alloc_nonce a with
          | None =>
            tnet_turn_send_allocate fuel context (cache_challenge realm nonce a)
              (after_attempt context a w)
          | Some _ => Ret (-3, a, after_attempt context a w)
          end
        | None => Ret (-2, a, after_attempt context a w)
        end
      else
        Ret (0,
             if 0 <=? tnet_stun_message_get_lifetime r
             then set_timeout (uint32 (tnet_stun_message_get_lifetime r)) a
             else a,
             after_attempt context a w)
    end
  else Ret (-1, a, (build_request context a w).2).
Proof.
  cbn [tnet_turn_send_allocate].
  rewrite (build_request_eq context a w), build_request_world.
  destruct (TNET_SOCKET_TYPE_IS_DGRAM (alloc_socket_type a)); [|done].
  unfold tnet_stun_send_unreliably; cbn [sent peer random_source random_calls].
  fold (attempt_exchange context a w). fold (attempt_reply context a w).
  fold (after_attempt context a w).
  destruct (attempt_reply context a w) as [r|]; [|done].
  unfold challenge.
  destruct (TNET_STUN_RESPONSE_IS_ERROR r); [|done]. cbn [andb].
  destruct (tnet_stun_message_get_errorcode r =? 401),
    (tnet_stun_message_get_realm r), (tnet_stun_message_get_nonce r); done.
Qed.

(** Once a nonce is cached the function does not call itself. *)
Lemma send_allocate_cached fuel context a w :
  is_Some (alloc_nonce a) →
  tnet_turn_send_allocate (S fuel) context a w =
  tnet_turn_send_allocate 1 context a w.
Proof.
  intros [n Hn]. rewrite !send_allocate_unfold, Hn.
  repeat case_match; done.
Qed.

(** Two levels are all the recursion ever uses. *)
Lemma send_allocate_fuel fuel context a w :
  (2 ≤ fuel)%nat →
  tnet_turn_send_allocate fuel context a w =
  tnet_turn_send_allocate 2 context a w.
Proof.
  intros Hf. destruct fuel as [|[|fuel]]; [lia..|].
  rewrite !(send_allocate_unfold (S _)).
  repeat case_match; try done.
Qed.

(** ** What a round leaves untouched *)

(** The record a round returns differs from the one it was given at most in
    the cached realm and nonce and in the stored timeout; a failed round
    leaves the timeout, and a record that came with a nonce keeps its realm
    and nonce. *)
Lemma send_allocate_frame fuel context a w ret a' w' :
  tnet_turn_send_allocate fuel context a w = Ret (ret, a', w') →
  negotiated_only a a'
  ∧ (ret ≠ 0 → alloc_timeout a' = alloc_timeout a)
  ∧ (is_Some (alloc_nonce a) →
     alloc_realm a' = alloc_realm a ∧ alloc_nonce a' = alloc_nonce a)
  ∧ (alloc_nonce a' = None → alloc_realm a' = alloc_realm a)
  ∧ peer w' = peer w ∧ random_source w' = random_source w.
Proof.
  revert a w. induction fuel as [|fuel IH]; intros a w; [done|].
  rewrite send_allocate_unfold.
  assert (Hrefl : negotiated_only a a) by (by unfold negotiated_only).
  repeat case_match; intros Hr; simplify_eq;
    try (split_and!; first [done | by intros [??] ]).
  apply IH in Hr as (Hn & Ht & Hc & Hk & Hp & Hs).
  destruct Hc as [_ Hc]; [by eexists|].
  split; [exact Hn|]. split; [exact Ht|].
  split; [by intros [??]|].
  split; [intros Hnone; by rewrite Hc in Hnone|done].
Qed.

(** What a round sends: every new entry of the log is the exchange of an
    attempt on the record as given or with a challenge cached onto it. *)
Lemma send_allocate_log fuel context a w ret a' w' :
  tnet_turn_send_allocate fuel context a w = Ret (ret, a', w') →
  ∃ news, sent w' = news ++ sent w
    ∧ (TNET_SOCKET_TYPE_IS_DGRAM (alloc_socket_type a) = true → news ≠ [])
    ∧ (TNET_SOCKET_TYPE_IS_DGRAM (alloc_socket_type a) = false → news = [])
    ∧ Forall (λ x, ∃ a0 w0, x = attempt_exchange context a0 w0
                 ∧ alloc_active a0 = alloc_active a
                 ∧ alloc_timeout a0 = alloc_timeout a) news.
Proof.
  revert a w. induction fuel as [|fuel IH]; intros a w; [done|].
  rewrite send_allocate_unfold.
  assert (Hone : ∀ r : Z * tnet_turn_allocation_t * world,
    r.2 = after_attempt context a w →
    TNET_SOCKET_TYPE_IS_DGRAM (alloc_socket_type a) = true →
    Ret r = Ret (ret, a', w') →
    ∃ news, sent w' = news ++ sent w
      ∧ (TNET_SOCKET_TYPE_IS_DGRAM (alloc_socket_type a) = true → news ≠ [])
      ∧ (TNET_SOCKET_TYPE_IS_DGRAM (alloc_socket_type a) = false → news = [])
      ∧ Forall (λ x, ∃ a0 w0, x = attempt_exchange context a0 w0
                   ∧ alloc_active a0 = alloc_active a
                   ∧ alloc_timeout a0 = alloc_timeout a) news).
  { intros r Hw Hd Hr. simplify_eq. cbn in Hw. subst w'.
    exists [attempt_exchange context a w]. split_and!; [done|done|congruence|].
    constructor; [|done]. by exists a, w. }
  repeat case_match; intros Hr;
    try (eapply Hone; [|done|exact Hr]; done).
  - apply IH in Hr as (news & Hs & _ & _ & Hall).
    exists (news ++ [attempt_exchange context a w]). split_and!.
    + rewrite Hs. cbn. by rewrite <- app_assoc.
    + intros _. by destruct news.
    + congruence.
    + apply Forall_app. split.
      * eapply Forall_impl; [exact Hall|].
        intros x (a0 & w0 & -> & Ha & Ht). exists a0, w0. by destruct a.
      * constructor; [|done]. by exists a, w.
  - simplify_eq. exists []. split_and!; try done.
Qed.

(** With two units of fuel a round always returns. *)
Lemma send_allocate_returns fuel context a w :
  (2 ≤ fuel)%nat →
  ∃ ret a' w', tnet_turn_send_allocate fuel context a w = Ret (ret, a', w').
Proof.
  intros Hf. rewrite (send_allocate_fuel fuel) by done.
  assert (Hlast : ∀ a w, is_Some (alloc_nonce a) →
    ∃ ret a' w', tnet_turn_send_allocate 1 context a w = Ret (ret, a', w')).
  { clear a w. intros a w [n Hn]. rewrite send_allocate_unfold, Hn.
    destruct (TNET_SOCKET_TYPE_IS_DGRAM _); [|by repeat eexists].
    destruct (attempt_reply _ _ _) as [r|]; [|by repeat eexists].
    destruct (TNET_STUN_RESPONSE_IS_ERROR r); [|by repeat eexists].
    destruct (challenge r) as [[??]|]; by repeat eexists. }
  rewrite send_allocate_unfold.
  destruct (TNET_SOCKET_TYPE_IS_DGRAM _); [|by repeat eexists].
  destruct (attempt_reply _ _ _) as [r|]; [|by repeat eexists].
  destruct (TNET_STUN_RESPONSE_IS_ERROR r); [|by repeat eexists].
  destruct (challenge r) as [[??]|]; [|by repeat eexists].
  destruct (alloc_nonce a) eqn:Hn; [by repeat eexists|].
  apply Hlast. by eexists.
Qed.

(** A datagram round never returns -1. *)
Lemma send_allocate_dgram_code fuel context a w ret a' w' :
  TNET_SOCKET_TYPE_IS_DGRAM (alloc_socket_type a) = true →
  tnet_turn_send_allocate fuel context a w = Ret (ret, a', w') →
  ret = 0 ∨ ret = -2 ∨ ret = -3 ∨ ret = -4.
Proof.
  revert a w. induction fuel as [|fuel IH]; intros a w Hd; [done|].
  rewrite send_allocate_unfold, Hd.
  repeat case_match; intros Hr; simplify_eq; auto.
  eapply IH; [|exact Hr]. done.
Qed.

(** ** The request builder *)

Lemma attempt_request_attributes context a w :
  req_attributes (attempt_request context a w) =
  match alloc_software a with
  | Some software => [STUN_ATTRIBUTE_SOFTWARE software (String.length software)]
  | None => []
  end ++
  [TURN_ATTRIBUTE_REQTRANS
     (if TNET_SOCKET_TYPE_IS_DGRAM (alloc_socket_type a)
      then TNET_PROTO_UDP else TNET_PROTO_TCP);
   TURN_ATTRIBUTE_LIFETIME (ntohl (alloc_timeout a));
   TURN_ATTRIBUTE_EVEN_PORT (ctx_enable_evenport context)].
Proof.
  unfold attempt_request, build_request. cbn.
  by destruct (alloc_software a).
Qed.

Lemma attempt_request_lifetime context a w v :
  TURN_ATTRIBUTE_LIFETIME v ∈ req_attributes (attempt_request context a w)
  ↔ v = ntohl (alloc_timeout a).
Proof.
  rewrite attempt_request_attributes.
  destruct (alloc_software a); cbn; rewrite ?elem_of_cons, elem_of_nil;
    split; [|intros ->; tauto| |intros ->; tauto]; intros Hin;
    repeat destruct Hin as [Hin|Hin]; by simplify_eq.
Qed.

Lemma attempt_request_type context a w :
  req_type (attempt_request context a w) =
  if alloc_active a then stun_refresh_request else stun_allocate_request.
Proof.
  unfold attempt_request, build_request. cbn.
  by destruct (alloc_software a).
Qed.

(** C8: every request the builder produces carries exactly one lifetime
    attribute, and its value is the desired timeout of the record converted
    from host to network byte order. *)
Theorem lifetime_attribute_in_network_order context a w v :
  TURN_ATTRIBUTE_LIFETIME v ∈ req_attributes (build_request context a w).1
  ↔ v = host_to_network (alloc_timeout a).
Proof.
  rewrite <- ntohl_host_to_network. apply attempt_request_lifetime.
Qed.

(** C7: a round on a stream record builds its request (one random
    transaction id is drawn), hands nothing to the transport, and returns -1;
    a round on a datagram record never returns -1, so the code tells the
    unsupported transport from every other failure. *)
Theorem stream_round_unsupported_transport fuel context a w :
  (1 ≤ fuel)%nat →
  TNET_SOCKET_TYPE_IS_DGRAM (alloc_socket_type a) = false →
  tnet_turn_send_allocate fuel context a w
    = Ret (-1, a, (build_request context a w).2)
  ∧ sent (build_request context a w).2 = sent w
  ∧ random_calls (build_request context a w).2 = S (random_calls w)
  ∧ (∀ fuel1 a1 w1 ret a2 w2,
       TNET_SOCKET_TYPE_IS_DGRAM (alloc_socket_type a1) = true →
       tnet_turn_send_allocate fuel1 context a1 w1 = Ret (ret, a2, w2) →
       ret ≠ -1).
Proof.
  intros Hf Hs. destruct fuel as [|fuel]; [lia|].
  rewrite send_allocate_unfold, Hs. split_and!; try done.
  intros fuel1 a1 w1 ret a2 w2 Hd Hr.
  destruct (send_allocate_dgram_code _ _ _ _ _ _ _ Hd Hr) as [?|[?|[?|?]]]; lia.
Qed.

(** C5: on a datagram record, when the response that ends the round (the
    answer of the peer to the last request logged) is not an error the round
    returns 0; a granted lifetime that is not negative becomes the stored
    timeout, a negative one leaves the stored timeout as it was. *)
Theorem success_adopts_granted_lifetime fuel context a w :
  (2 ≤ fuel)%nat →
  TNET_SOCKET_TYPE_IS_DGRAM (alloc_socket_type a) = true →
  ∃ ret a' w',
    tnet_turn_send_allocate fuel context a w = Ret (ret, a', w')
    ∧ ∀ r, peer w (sent w') = Some r →
        TNET_STUN_RESPONSE_IS_ERROR r = false →
        int32_range (tnet_stun_message_get_lifetime r) →
        ret = 0
        ∧ alloc_timeout a' =
            if 0 <=? tnet_stun_message_get_lifetime r
            then tnet_stun_message_get_lifetime r else alloc_timeout a.
Proof.
  intros Hf Hd. rewrite (send_allocate_fuel fuel) by done.
  assert (Hadopt : ∀ (b : tnet_turn_allocation_t) r,
    int32_range (tnet_stun_message_get_lifetime r) →
    alloc_timeout
      (if 0 <=? tnet_stun_message_get_lifetime r
       then set_timeout (uint32 (tnet_stun_message_get_lifetime r)) b else b)
    = if 0 <=? tnet_stun_message_get_lifetime r
      then tnet_stun_message_get_lifetime r else alloc_timeout b).
  { intros b r [Hlo Hhi]. destruct (0 <=? _) eqn:Hl; [|done].
    apply Z.leb_le in Hl. cbn. unfold uint32. apply Z.mod_small. lia. }
  assert (Hlast : ∀ b w0, peer w0 = peer w →
    TNET_SOCKET_TYPE_IS_DGRAM (alloc_socket_type b) = true →
    alloc_timeout b = alloc_timeout a →
    is_Some (alloc_nonce b) →
    ∃ ret a' w',
      tnet_turn_send_allocate 1 context b w0 = Ret (ret, a', w')
      ∧ ∀ r, peer w (sent w') = Some r →
          TNET_STUN_RESPONSE_IS_ERROR r = false →
          int32_range (tnet_stun_message_get_lifetime r) →
          ret = 0
          ∧ alloc_timeout a' =
              if 0 <=? tnet_stun_message_get_lifetime r
              then tnet_stun_message_get_lifetime r else alloc_timeout a).
  { intros b w0 Hp Hdb Ht [n Hn]. rewrite send_allocate_unfold, Hdb, Hn.
    assert (Hreply : peer w (sent (after_attempt context b w0))
                     = attempt_reply context b w0)
      by (unfold attempt_reply; by rewrite <- Hp).
    destruct (attempt_reply context b w0) as [r|] eqn:Hr.
    - destruct (TNET_STUN_RESPONSE_IS_ERROR r) eqn:He.
      + destruct (challenge r) as [[??]|]; do 3 eexists; (split; [done|]);
          intros r' Hr' He'; rewrite Hreply in Hr'; simplify_eq; congruence.
      + do 3 eexists; split; [done|].
        intros r' Hr' _ Hi. rewrite Hreply in Hr'. simplify_eq.
        split; [done|]. rewrite Hadopt by done. by rewrite Ht.
    - do 3 eexists; split; [done|]. intros r' Hr'.
      rewrite Hreply in Hr'. done. }
  rewrite send_allocate_unfold, Hd.
  assert (Hreply : peer w (sent (after_attempt context a w))
                   = attempt_reply context a w) by done.
  destruct (attempt_reply context a w) as [r|] eqn:Hr.
  - destruct (TNET_STUN_RESPONSE_IS_ERROR r) eqn:He.
    + destruct (challenge r) as [[realm nonce]|].
      * destruct (alloc_nonce a) eqn:Hn.
        -- do 3 eexists; split; [done|].
           intros r' Hr' He'; rewrite Hreply in Hr'; simplify_eq; congruence.
        -- apply Hlast; first [done | by eexists].
      * do 3 eexists; split; [done|].
        intros r' Hr' He'; rewrite Hreply in Hr'; simplify_eq; congruence.
    + do 3 eexists; split; [done|].
      intros r' Hr' _ Hi. rewrite Hreply in Hr'. simplify_eq.
      split; [done|]. by rewrite Hadopt.
  - do 3 eexists; split; [done|]. intros r' Hr'.
    rewrite Hreply in Hr'. done.
Qed.

End Round.

(** ** The lifecycle operations *)

Section Lifecycle.
Context `{Platform}.

Lemma new_addr_fresh (objs : gmap addr tnet_turn_allocation_t) :
  objs !! new_addr objs = None.
Proof. apply (not_elem_of_dom (D := gset addr)). unfold new_addr. apply is_fresh. Qed.

Lemma remove_item_other (l : list addr) (data x : addr) :
  x ≠ data → x ∈ tsk_list_remove_item_by_data l data ↔ x ∈ l.
Proof.
  intros Hne. induction l as [|y l IH]; [done|]. cbn.
  case_decide as Hy; subst.
  - rewrite elem_of_cons. split; [auto|]. by intros [->|?].
  - by rewrite !elem_of_cons, IH.
Qed.

Lemma remove_item_gone (l : list addr) (data : addr) :
  NoDup l → data ∉ tsk_list_remove_item_by_data l data.
Proof.
  induction 1 as [|y l Hy Hl IH]; cbn; [by apply not_elem_of_nil|].
  case_decide as Hne; subst; [done|].
  rewrite elem_of_cons. intros [Heq|Hin]; [congruence|by apply IH].
Qed.

(** The record [tnet_turn_allocate] hands to its round. *)
Lemma allocate_unfold fuel context localFD socket_type p :
  tnet_turn_allocate fuel (Some context) localFD socket_type p =
  match tnet_turn_send_allocate fuel context
          (created_allocation context localFD (unique_id p)) (env p) with
  | Ret (ret, a1, w1) =>
    if ret =? 0 then
      Ret (alloc_id a1,
           Some (set_allocations
                   (ctx_allocations context ++ [new_addr (objects p)]) context),
           {| unique_id := wrap_id (unique_id p + 1);
              objects := <[new_addr (objects p) := set_active true a1]> (objects p);
              env := w1 |})
    else
      Ret (TNET_TURN_INVALID_ALLOCATION_ID, Some context,
           {| unique_id := wrap_id (unique_id p + 1);
              objects := objects p; env := w1 |})
  | OutOfFuel => OutOfFuel
  | Undefined => Undefined
  end.
Proof.
  unfold tnet_turn_allocate, created_allocation, tsk_list_push_back_data. cbn.
  destruct (tnet_turn_send_allocate _ _ _ _) as [[[ret a1] w1]| |]; try done.
  destruct (ret =? 0); cbn.
  - by rewrite !insert_insert_eq.
  - unfold TSK_OBJECT_SAFE_FREE. rewrite !insert_insert_eq.
    rewrite delete_alter, delete_insert_eq, delete_id by apply new_addr_fresh.
    by case_decide.
Qed.

(** C2: an Allocate call on a non-null context runs one round on the record
    it has just created.  When the round returns 0 the record, marked active,
    is stored at its address, the address is appended to the registry, and
    the id of the record is returned; when the round returns anything else
    the record is released, the invalid id is returned, and context and heap
    are as before the call. *)
Theorem allocate_registers_on_success_only fuel context localFD socket_type p :
  (2 ≤ fuel)%nat →
  objects p !! new_addr (objects p) = None
  ∧ ∃ ret a1 w1,
      tnet_turn_send_allocate fuel context
        (created_allocation context localFD (unique_id p)) (env p)
        = Ret (ret, a1, w1)
      ∧ ∃ id c' p',
          tnet_turn_allocate fuel (Some context) localFD socket_type p
            = Ret (id, Some c', p')
          ∧ env p' = w1
          ∧ (ret = 0 →
             id = alloc_id (created_allocation context localFD (unique_id p))
             ∧ objects p' !! new_addr (objects p) = Some (set_active true a1)
             ∧ alloc_id a1 = id
             ∧ ctx_allocations c'
               = ctx_allocations context ++ [new_addr (objects p)])
          ∧ (ret ≠ 0 →
             id = TNET_TURN_INVALID_ALLOCATION_ID
             ∧ objects p' !! new_addr (objects p) = None
             ∧ objects p' = objects p
             ∧ c' = context).
Proof.
  intros Hf. split; [apply new_addr_fresh|].
  destruct (send_allocate_returns fuel context
              (created_allocation context localFD (unique_id p)) (env p) Hf)
    as (ret & a1 & w1 & Hr).
  exists ret, a1, w1. split; [done|].
  rewrite allocate_unfold, Hr.
  destruct (send_allocate_frame _ _ _ _ _ _ _ Hr) as ((Hid & _) & _).
  destruct (ret =? 0) eqn:He.
  - apply Z.eqb_eq in He. do 3 eexists. split; [done|]. cbn.
    split_and!; [done| |done]. intros _.
    rewrite lookup_insert_eq. done.
  - apply Z.eqb_neq in He. do 3 eexists. split; [done|]. cbn.
    split_and!; [done|done|]. intros _. split_and!; try done.
    apply new_addr_fresh.
Qed.

Lemma unallocate_unfold fuel context ptr a p :
  objects p !! ptr = Some a →
  tnet_turn_unallocate fuel (Some context) (Some ptr) p =
  match tnet_turn_send_allocate fuel context (set_timeout 0 a) (env p) with
  | Ret (ret, a1, w1) =>
    if ret =? 0 then
      Ret (0,
           Some (set_allocations
                   (tsk_list_remove_item_by_data (ctx_allocations context) ptr)
                   context),
           {| unique_id := unique_id p; objects := <[ptr := a1]> (objects p);
              env := w1 |})
    else
      Ret (-1, Some context,
           {| unique_id := unique_id p;
              objects := <[ptr := set_timeout (uint32 (alloc_timeout a)) a1]>
                           (objects p);
              env := w1 |})
  | OutOfFuel => OutOfFuel
  | Undefined => Undefined
  end.
Proof.
  intros Ha. unfold tnet_turn_unallocate. rewrite Ha.
  destruct (tnet_turn_send_allocate _ _ _ _) as [[[ret a1] w1]| |]; try done.
  by destruct (ret =? 0).
Qed.

(** ** The registry invariant *)

Lemma remove_item_subseteq (l : list addr) (data x : addr) :
  x ∈ tsk_list_remove_item_by_data l data → x ∈ l.
Proof.
  induction l as [|y l IH]; [done|]. cbn.
  case_decide as Hy; rewrite !elem_of_cons; [auto|].
  intros [->|Hin]; auto.
Qed.

Lemma remove_item_NoDup (l : list addr) (data : addr) :
  NoDup l → NoDup (tsk_list_remove_item_by_data l data).
Proof.
  induction 1 as [|y l Hy Hl IH]; cbn; [constructor|].
  case_decide as Hne; [done|]. constructor; [|done].
  intros Hin. by apply Hy, (remove_item_subseteq _ data).
Qed.

Lemma registry_ok_empty context p :
  ctx_allocations context = [] → registry_ok context p.
Proof.
  intros Hnil. unfold registry_ok. rewrite Hnil. split; [constructor|].
  intros q Hq. by apply elem_of_nil in Hq.
Qed.

(** An Allocate call keeps the invariant. *)
Lemma allocate_registry_ok fuel context localFD socket_type p id c' p' :
  registry_ok context p →
  tnet_turn_allocate fuel (Some context) localFD socket_type p
    = Ret (id, Some c', p') →
  registry_ok c' p'.
Proof.
  intros [Hnd Hlive]. rewrite allocate_unfold.
  destruct (tnet_turn_send_allocate _ _ _ _) as [[[ret a1] w1]| |]; [|done..].
  assert (Hfresh : new_addr (objects p) ∉ ctx_allocations context).
  { intros Hin. destruct (Hlive _ Hin) as (a & Ha & _).
    by rewrite new_addr_fresh in Ha. }
  destruct (ret =? 0); intros [= <- <- <-]; [|by split].
  split; cbn.
  - apply NoDup_app. split_and!; [done| |apply NoDup_singleton].
    intros q Hq Hq'. apply list_elem_of_singleton in Hq' as ->. done.
  - intros q Hq. apply elem_of_app in Hq as [Hq|Hq].
    + rewrite lookup_insert_ne by (intros <-; done). by apply Hlive.
    + apply list_elem_of_singleton in Hq as ->.
      rewrite lookup_insert_eq. by eexists.
Qed.

(** A Deallocate call keeps the invariant. *)
Lemma unallocate_registry_ok fuel context ptr p res c' p' :
  registry_ok context p →
  tnet_turn_unallocate fuel (Some context) (Some ptr) p
    = Ret (res, Some c', p') →
  registry_ok c' p'.
Proof.
  intros [Hnd Hlive]. unfold tnet_turn_unallocate.
  destruct (objects p !! ptr) as [a|] eqn:Ha; [|done].
  destruct (tnet_turn_send_allocate _ _ _ _) as [[[ret a1] w1]| |] eqn:Hr;
    [|done..].
  apply send_allocate_frame in Hr as (Hn & _).
  destruct Hn as (_ & _ & _ & _ & _ & _ & _ & _ & Hact). cbn in Hact.
  assert (Hkeep : ∀ t q, q ∈ ctx_allocations context →
    ∃ b, <[ptr := set_timeout t a1]> (objects p) !! q = Some b
         ∧ alloc_active b = true).
  { intros t q Hq. destruct (decide (q = ptr)) as [->|Hne].
    - rewrite lookup_insert_eq. eexists. split; [done|]. cbn.
      destruct (Hlive _ Hq) as (b & Hb & Hbact). simplify_eq. congruence.
    - rewrite lookup_insert_ne by done. by apply Hlive. }
  destruct (ret =? 0); cbn; intros [= <- <- <-]; split; cbn; try done.
  - by apply remove_item_NoDup.
  - intros q Hq. apply remove_item_subseteq in Hq.
    destruct (Hkeep (alloc_timeout a1) q Hq) as (b & Hb & Hbact).
    exists b. split; [|done]. by destruct a1.
  - intros q Hq. by apply Hkeep.
Qed.

(** What a Deallocate call sends. *)
Lemma unallocate_log fuel context ptr a p :
  (2 ≤ fuel)%nat →
  objects p !! ptr = Some a →
  ∃ res c' p' news,
    tnet_turn_unallocate fuel (Some context) (Some ptr) p = Ret (res, c', p')
    ∧ sent (env p') = news ++ sent (env p)
    ∧ (TNET_SOCKET_TYPE_IS_DGRAM (alloc_socket_type a) = true → news ≠ [])
    ∧ Forall (λ x, ∃ a0 w0, x = attempt_exchange context a0 w0
                 ∧ alloc_active a0 = alloc_active a
                 ∧ alloc_timeout a0 = 0) news.
Proof.
  intros Hf Ha.
  destruct (send_allocate_returns fuel context (set_timeout 0 a) (env p) Hf)
    as (ret & a1 & w1 & Hr).
  rewrite (unallocate_unfold _ _ _ a) by done. rewrite Hr.
  apply send_allocate_log in Hr as (news & Hs & Hne & _ & Hall).
  destruct (ret =? 0); do 3 eexists; exists news; (split; [done|]); done.
Qed.

(** C9: the request of an attempt is an allocate request exactly when the
    record is not active and a refresh request exactly when it is; every
    request a Deallocate call sends for an active record is a refresh request
    whose lifetime attribute is 0, and on a datagram record at least one is
    sent. *)
Theorem request_kind_follows_active_flag :
  (∀ context a w,
     (req_type (build_request context a w).1 = stun_allocate_request
      ↔ alloc_active a = false)
     ∧ (req_type (build_request context a w).1 = stun_refresh_request
        ↔ alloc_active a = true))
  ∧ (∀ fuel context ptr a p,
       (2 ≤ fuel)%nat →
       objects p !! ptr = Some a →
       alloc_active a = true →
       ∃ res c' p' news,
         tnet_turn_unallocate fuel (Some context) (Some ptr) p
           = Ret (res, c', p')
         ∧ sent (env p') = news ++ sent (env p)
         ∧ (TNET_SOCKET_TYPE_IS_DGRAM (alloc_socket_type a) = true → news ≠ [])
         ∧ Forall (λ x,
             req_type (x_request x) = stun_refresh_request
             ∧ ∀ v, TURN_ATTRIBUTE_LIFETIME v ∈ req_attributes (x_request x)
                    ↔ v = 0) news).
Proof.
  split.
  - intros context a w. fold (attempt_request context a w).
    rewrite attempt_request_type. by destruct (alloc_active a).
  - intros fuel context ptr a p Hf Ha Hact.
    destruct (unallocate_log fuel context ptr a p Hf Ha)
      as (res & c' & p' & news & Hu & Hs & Hne & Hall).
    exists res, c', p', news. split_and!; try done.
    eapply Forall_impl; [exact Hall|].
    intros x (a0 & w0 & -> & Hact0 & Ht0).
    unfold attempt_exchange; cbn [x_request]. split.
    + rewrite attempt_request_type, Hact0, Hact. done.
    + intros v. rewrite attempt_request_lifetime, Ht0, ntohl_0. done.
Qed.

(** C10: the constructor leaves the relay address absent; a round returns the
    record with every field but realm, nonce and timeout as it received it,
    the relay address among them; the record an Allocate call registers has
    no relay address; a Deallocate call leaves the relay address of its
    record, and every other object, as they were; the destructor leaves no
    relay address behind. *)
Theorem relay_address_never_written :
  (∀ counter localFD socket_type server_address server_port username password,
     alloc_relay_address
       (tnet_turn_allocation_create counter localFD socket_type server_address
          server_port username password).1 = None)
  ∧ (∀ fuel context a w,
       (2 ≤ fuel)%nat →
       ∃ ret a' w',
         tnet_turn_send_allocate fuel context a w = Ret (ret, a', w')
         ∧ alloc_relay_address a' = alloc_relay_address a
         ∧ negotiated_only a a')
  ∧ (∀ fuel context localFD socket_type p,
       (2 ≤ fuel)%nat →
       ∃ id c' p',
         tnet_turn_allocate fuel (Some context) localFD socket_type p
           = Ret (id, c', p')
         ∧ (∀ a, objects p' !! new_addr (objects p) = Some a →
                 alloc_relay_address a = None)
         ∧ (∀ q, q ≠ new_addr (objects p) →
                 objects p' !! q = objects p !! q))
  ∧ (∀ fuel context ptr a p,
       (2 ≤ fuel)%nat →
       objects p !! ptr = Some a →
       ∃ res c' p' a',
         tnet_turn_unallocate fuel (Some context) (Some ptr) p
           = Ret (res, c', p')
         ∧ objects p' !! ptr = Some a'
         ∧ alloc_relay_address a' = alloc_relay_address a
         ∧ (∀ q, q ≠ ptr → objects p' !! q = objects p !! q))
  ∧ (∀ a, alloc_relay_address (tnet_turn_allocation_destroy a) = None).
Proof.
  split_and!; [| | | |done].
  - done.
  - intros fuel context a w Hf.
    destruct (send_allocate_returns fuel context a w Hf)
      as (ret & a' & w' & Hr).
    exists ret, a', w'. split; [done|].
    apply send_allocate_frame in Hr as (Hn & _). split; [|done].
    apply Hn.
  - intros fuel context localFD socket_type p Hf.
    destruct (send_allocate_returns fuel context
                (created_allocation context localFD (unique_id p)) (env p) Hf)
      as (ret & a1 & w1 & Hr).
    rewrite allocate_unfold, Hr.
    apply send_allocate_frame in Hr as (Hn & _).
    destruct (ret =? 0); do 3 eexists; (split; [done|]); cbn; split.
    + intros a. rewrite lookup_insert_eq. intros [= <-]. cbn.
      destruct Hn as (_ & _ & _ & _ & _ & _ & -> & _). done.
    + intros q Hq. by rewrite lookup_insert_ne.
    + intros a. by rewrite new_addr_fresh.
    + done.
  - intros fuel context ptr a p Hf Ha.
    destruct (send_allocate_returns fuel context (set_timeout 0 a) (env p) Hf)
      as (ret & a1 & w1 & Hr).
    rewrite (unallocate_unfold _ _ _ a) by done. rewrite Hr.
    apply send_allocate_frame in Hr as (Hn & _).
    destruct Hn as (_ & _ & _ & _ & _ & _ & Hrelay & _). cbn in Hrelay.
    destruct (ret =? 0); do 4 eexists; (split; [done|]); cbn;
      rewrite lookup_insert_eq; (split; [done|]); (split; [done|]);
      intros q Hq; by rewrite lookup_insert_ne.
Qed.

(** ** Retries *)

Lemma challenge_is_error r realm nonce :
  challenge r = Some (realm, nonce) →
  TNET_STUN_RESPONSE_IS_ERROR r = true
  ∧ tnet_stun_message_get_errorcode r = 401
  ∧ tnet_stun_message_get_realm r = Some realm
  ∧ tnet_stun_message_get_nonce r = Some nonce.
Proof.
  unfold challenge.
  destruct (TNET_STUN_RESPONSE_IS_ERROR r); [|done]. cbn.
  destruct (_ =? 401) eqn:Hc; [|done]. apply Z.eqb_eq in Hc.
  destruct (tnet_stun_message_get_realm r), (tnet_stun_message_get_nonce r);
    intros; by simplify_eq.
Qed.

Lemma attempt_request_transaction_id context a w :
  req_transaction_id (attempt_request context a w) =
  take TNET_STUN_TRANSACID_SIZE
    (TSK_MD5_DIGEST_CALC (random_source w (random_calls w))).
Proof.
  unfold attempt_request, build_request. cbn.
  by destruct (alloc_software a).
Qed.

Lemma attempt_request_credentials context a w :
  req_realm (attempt_request context a w) = alloc_realm a
  ∧ req_nonce (attempt_request context a w) = alloc_nonce a.
Proof.
  unfold attempt_request, build_request. cbn.
  by destruct (alloc_software a).
Qed.

(** The attempt on a record that holds a nonce is the last one. *)
Lemma send_allocate_last context a w :
  is_Some (alloc_nonce a) →
  TNET_SOCKET_TYPE_IS_DGRAM (alloc_socket_type a) = true →
  ∃ ret a',
    tnet_turn_send_allocate 1 context a w
      = Ret (ret, a', after_attempt context a w)
    ∧ alloc_realm a' = alloc_realm a ∧ alloc_nonce a' = alloc_nonce a
    ∧ (∀ r realm nonce, attempt_reply context a w = Some r →
         challenge r = Some (realm, nonce) → ret = -3 ∧ a' = a).
Proof.
  intros [n Hn] Hd. rewrite send_allocate_unfold, Hd, Hn.
  destruct (attempt_reply context a w) as [r|]; [|by repeat eexists].
  destruct (TNET_STUN_RESPONSE_IS_ERROR r) eqn:He.
  - destruct (challenge r) as [[??]|] eqn:Hc; do 2 eexists;
      (split; [done|]); split_and!; try done.
    intros ??? [= <-]. congruence.
  - do 2 eexists; split; [done|]. split_and!.
    + by destruct (0 <=? _).
    + by destruct (0 <=? _).
    + intros r' realm nonce [= <-] Hc.
      apply challenge_is_error in Hc as (? & _). congruence.
Qed.

(** C1, as the code has it: a round hands at most two requests to the
    transport.  When the first response is a 401 carrying realm and nonce
    and the record holds no nonce, the realm and nonce are cached onto the
    record and exactly one more attempt is made, from the record so updated:
    its request carries the cached realm and nonce, and its transaction id is
    the truncated digest of the next string of the random source, the first
    attempt's being that of the current one.  When such a 401 arrives and
    the record holds a nonce, the round returns -3 after that one exchange
    and leaves the record as it was. *)
Theorem one_retry_per_round fuel context a w :
  (2 ≤ fuel)%nat →
  ∃ ret a' w' news,
    tnet_turn_send_allocate fuel context a w = Ret (ret, a', w')
    ∧ sent w' = news ++ sent w
    ∧ (length news ≤ 2)%nat
    ∧ (TNET_SOCKET_TYPE_IS_DGRAM (alloc_socket_type a) = true →
       ∀ r realm nonce,
         attempt_reply context a w = Some r →
         challenge r = Some (realm, nonce) →
         (alloc_nonce a = None →
          news = [attempt_exchange context (cache_challenge realm nonce a)
                    (after_attempt context a w);
                  attempt_exchange context a w]
          ∧ tnet_turn_send_allocate fuel context a w
            = tnet_turn_send_allocate 1 context (cache_challenge realm nonce a)
                (after_attempt context a w)
          ∧ req_realm (attempt_request context (cache_challenge realm nonce a)
                         (after_attempt context a w)) = Some realm
          ∧ req_nonce (attempt_request context (cache_challenge realm nonce a)
                         (after_attempt context a w)) = Some nonce
          ∧ alloc_realm a' = Some realm
          ∧ alloc_nonce a' = Some nonce
          ∧ req_transaction_id (attempt_request context a w)
            = take TNET_STUN_TRANSACID_SIZE
                (TSK_MD5_DIGEST_CALC (random_source w (random_calls w)))
          ∧ req_transaction_id
              (attempt_request context (cache_challenge realm nonce a)
                 (after_attempt context a w))
            = take TNET_STUN_TRANSACID_SIZE
                (TSK_MD5_DIGEST_CALC (random_source w (S (random_calls w)))))
         ∧ (is_Some (alloc_nonce a) →
            ret = -3 ∧ a' = a ∧ news = [attempt_exchange context a w])).
Proof.
  intros Hf. rewrite (send_allocate_fuel fuel) by done.
  rewrite send_allocate_unfold.
  destruct (TNET_SOCKET_TYPE_IS_DGRAM (alloc_socket_type a)) eqn:Hd.
  2:{ exists (-1), a, (build_request context a w).2, [].
      split; [done|]. split; [done|]. split; [cbn; lia|done]. }
  destruct (attempt_reply context a w) as [r|] eqn:Hr.
  2:{ single_exchange. done. }
  destruct (TNET_STUN_RESPONSE_IS_ERROR r) eqn:He.
  2:{ single_exchange.
      intros _ r' realm nonce [= <-] Hc.
      apply challenge_is_error in Hc as (? & _). congruence. }
  destruct (challenge r) as [[realm nonce]|] eqn:Hc.
  2:{ single_exchange.
      intros _ r' realm nonce [= <-]. congruence. }
  destruct (alloc_nonce a) as [n|] eqn:Hn.
  { single_exchange.
    intros _ r' realm' nonce' [= <-] _. split; [done|]. done. }
  destruct (send_allocate_last context (cache_challenge realm nonce a)
              (after_attempt context a w)) as (ret & a' & Hs & Hrl & Hnc & _);
    [by eexists|done|].
  exists ret, a', (after_attempt context (cache_challenge realm nonce a)
                     (after_attempt context a w)),
    [attempt_exchange context (cache_challenge realm nonce a)
       (after_attempt context a w); attempt_exchange context a w].
  split_and!; try done.
  intros _ r' realm' nonce' [= <-] Hc'. rewrite Hc in Hc'. simplify_eq.
  split; [|by intros [??]]. intros _.
  split_and!; try done.
  - apply attempt_request_credentials.
  - apply attempt_request_credentials.
  - apply attempt_request_transaction_id.
  - apply attempt_request_transaction_id.
Qed.

(** ** Failed calls *)

(** A failed round returns the record as it was given, or with the challenge
    of the round cached onto it. *)
Lemma send_allocate_failure fuel context a w ret a' w' :
  tnet_turn_send_allocate fuel context a w = Ret (ret, a', w') →
  ret ≠ 0 → restored_up_to_challenge a a'.
Proof.
  revert a w. induction fuel as [|fuel IH]; intros a w; [done|].
  rewrite send_allocate_unfold.
  destruct (TNET_SOCKET_TYPE_IS_DGRAM _); [|intros [= <- <- <-]; by left].
  destruct (attempt_reply _ _ _) as [r|]; [|intros [= <- <- <-]; by left].
  destruct (TNET_STUN_RESPONSE_IS_ERROR r); [|by intros [= <- <- <-]].
  destruct (challenge r) as [[realm nonce]|]; [|intros [= <- <- <-]; by left].
  destruct (alloc_nonce a) eqn:Hn; [intros [= <- <- <-]; by left|].
  intros Hr Hret. right. split; [done|]. exists realm, nonce.
  destruct (IH _ _ Hr Hret) as [->|[Hnone _]]; done.
Qed.

Lemma set_timeout_restore a :
  set_timeout (alloc_timeout a) (set_timeout 0 a) = a.
Proof. by destruct a. Qed.

(** ** Allocation ids *)

Lemma wrap_id_small x : 0 ≤ x < 2 ^ ID_BITS → wrap_id x = x.
Proof. intros Hx. unfold wrap_id. by apply Z.mod_small. Qed.

Lemma ids_created_in_range counter calls :
  0 ≤ counter →
  counter + Z.of_nat (length calls) < 2 ^ ID_BITS →
  ids_created counter calls = seqZ (counter + 1) (Z.of_nat (length calls))
  ∧ counter_after counter calls = counter + Z.of_nat (length calls).
Proof.
  revert counter. induction calls as [|[context localFD] calls IH];
    intros counter Hc Hb; cbn [ids_created counter_after length] in *.
  - split; [done|lia].
  - cbn [tnet_turn_allocation_create alloc_id].
    rewrite Nat2Z.inj_succ in Hb |- *.
    rewrite wrap_id_small by lia.
    destruct (IH (counter + 1)) as [-> ->]; [lia..|].
    split; [|lia]. rewrite (seqZ_cons (counter + 1)) by lia.
    do 2 f_equal; lia.
Qed.

(** From a zeroed counter, every value of the id type is reached. *)
Lemma counter_after_from_zero calls :
  counter_after 0 calls = wrap_id (Z.of_nat (length calls)).
Proof.
  assert (Hgen : ∀ counter,
    wrap_id (counter_after counter calls) = wrap_id (counter + Z.of_nat (length calls))
    ∧ (calls ≠ [] → counter_after counter calls
                    = wrap_id (counter + Z.of_nat (length calls)))).
  { induction calls as [|[context localFD] calls IH]; intros counter;
      cbn [counter_after length].
    - split; [f_equal; lia|done].
    - cbn [tnet_turn_allocation_create]. rewrite Nat2Z.inj_succ.
      destruct (IH (wrap_id (counter + 1))) as [IH1 IH2].
      assert (Hw : wrap_id (wrap_id (counter + 1) + Z.of_nat (length calls))
                   = wrap_id (counter + Z.succ (Z.of_nat (length calls)))).
      { unfold wrap_id. rewrite Zplus_mod_idemp_l. f_equal; lia. }
      split; [by rewrite IH1|]. intros _.
      destruct calls as [|c calls]; [|rewrite IH2 by done; done].
      cbn [counter_after length] in *. f_equal; lia. }
  destruct calls as [|c calls]; [done|].
  by apply Hgen.
Qed.

(** C6, as the code has it: the id of a record is assigned once, by the
    constructor, as the next value of the static counter modulo 2^ID_BITS; an
    Allocate call advances the counter whether its round succeeds or not and
    returns that id on success; a Deallocate call changes neither the counter
    nor the id of its record.  As long as the counter has not wrapped, the
    ids of records created one after the other are the successive integers
    above the counter: non-zero, distinct and strictly increasing. *)
Theorem ids_increase_until_counter_wraps :
  (∀ counter localFD socket_type server_address server_port username password,
     alloc_id
       (tnet_turn_allocation_create counter localFD socket_type server_address
          server_port username password).1 = wrap_id (counter + 1)
     ∧ (tnet_turn_allocation_create counter localFD socket_type server_address
          server_port username password).2 = wrap_id (counter + 1))
  ∧ (∀ fuel context localFD socket_type p,
       (2 ≤ fuel)%nat →
       ∃ id c' p',
         tnet_turn_allocate fuel (Some context) localFD socket_type p
           = Ret (id, c', p')
         ∧ unique_id p' = wrap_id (unique_id p + 1)
         ∧ (id = wrap_id (unique_id p + 1)
            ∨ id = TNET_TURN_INVALID_ALLOCATION_ID ∧ objects p' = objects p))
  ∧ (∀ fuel context ptr a p,
       (2 ≤ fuel)%nat →
       objects p !! ptr = Some a →
       ∃ res c' p' a',
         tnet_turn_unallocate fuel (Some context) (Some ptr) p
           = Ret (res, c', p')
         ∧ unique_id p' = unique_id p
         ∧ objects p' !! ptr = Some a'
         ∧ alloc_id a' = alloc_id a)
  ∧ (∀ counter calls,
       0 ≤ counter →
       counter + Z.of_nat (length calls) < 2 ^ ID_BITS →
       ids_created counter calls = seqZ (counter + 1) (Z.of_nat (length calls))
       ∧ counter_after counter calls = counter + Z.of_nat (length calls)
       ∧ (∀ x, x ∈ ids_created counter calls → x ≠ 0 ∧ counter < x)
       ∧ NoDup (ids_created counter calls)
       ∧ (∀ i j x y, (i < j)%nat →
            ids_created counter calls !! i = Some x →
            ids_created counter calls !! j = Some y → x < y)).
Proof.
  split_and!.
  - done.
  - intros fuel context localFD socket_type p Hf.
    destruct (send_allocate_returns fuel context
                (created_allocation context localFD (unique_id p)) (env p) Hf)
      as (ret & a1 & w1 & Hr).
    rewrite allocate_unfold, Hr.
    apply send_allocate_frame in Hr as ((Hid & _) & _).
    destruct (ret =? 0); do 3 eexists; (split; [done|]); cbn;
      (split; [done|]); [left|right]; done.
  - intros fuel context ptr a p Hf Ha.
    destruct (send_allocate_returns fuel context (set_timeout 0 a) (env p) Hf)
      as (ret & a1 & w1 & Hr).
    rewrite (unallocate_unfold _ _ _ a) by done. rewrite Hr.
    apply send_allocate_frame in Hr as ((Hid & _) & _). cbn in Hid.
    destruct (ret =? 0); do 4 eexists; (split; [done|]); cbn;
      rewrite lookup_insert_eq; done.
  - intros counter calls Hc Hb.
    destruct (ids_created_in_range counter calls Hc Hb) as [Hids Hafter].
    rewrite Hids. split_and!; try done.
    + intros x Hx. apply elem_of_seqZ in Hx. lia.
    + apply NoDup_seqZ.
    + intros i j x y Hij Hi Hj.
      apply lookup_seqZ in Hi, Hj. lia.
Qed.

End Lifecycle.

(** * Scenarios on the concrete platform *)

(** Scenario B of the specification: a challenge, then a success granting
    3600 seconds. *)
Example scenario_challenge_then_success :
  match tnet_turn_allocate (H := host64) 2 (Some ctx0) 3 socket_dgram
          (process0 (world_challenge_success counting_source)) with
  | Ret (id, c', p') =>
    id = 1 ∧ (ctx_allocations <$> c') = Some [ptr1]
    ∧ (alloc_timeout <$> objects p' !! ptr1) = Some 3600
    ∧ (alloc_active <$> objects p' !! ptr1) = Some true
    ∧ (alloc_nonce <$> objects p' !! ptr1) = Some (Some "abc123")
    ∧ (alloc_realm <$> objects p' !! ptr1) = Some (Some "example.org")
  | _ => False
  end.
Proof. vm_compute. by repeat split. Qed.

(** Witness of C1: the challenged round of a fresh record sends two requests
    and leaves the nonce cached. *)
Lemma one_retry_per_round_witness :
  (2 ≤ 2)%nat
  ∧ ∃ ret a' w',
      tnet_turn_send_allocate (H := host64) 2 ctx0 fresh0
        (world_challenge_success counting_source) = Ret (ret, a', w')
      ∧ length (sent w') = 2%nat
      ∧ alloc_nonce a' = Some "abc123".
Proof.
  split; [lia|].
  destruct (one_retry_per_round (H := host64) 2 ctx0 fresh0
              (world_challenge_success counting_source))
    as (ret & a' & w' & news & Hr & Hs & Hl & Hc); [lia|].
  exists ret, a', w'. split; [exact Hr|].
  destruct (Hc eq_refl (unauthorized "example.org" "abc123")
              "example.org" "abc123" eq_refl eq_refl) as [Hretry _].
  destruct (Hretry eq_refl) as (Hn & _ & _ & _ & _ & Hnonce & _).
  rewrite Hs, Hn. split; [reflexivity|exact Hnonce].
Defined.

(** C1 as stated fails: with a random source that yields the same string
    twice, the first response a 401 carrying realm and nonce and no nonce
    cached, the round retries once and the retried request carries the
    transaction id of the first attempt. *)
Lemma retry_may_repeat_transaction_id :
  alloc_nonce fresh0 = None
  ∧ attempt_reply (H := host64) ctx0 fresh0 (world_challenge_success stuck_source)
    = Some (unauthorized "example.org" "abc123")
  ∧ match tnet_turn_send_allocate (H := host64) 2 ctx0 fresh0
            (world_challenge_success stuck_source) with
    | Ret (ret, a', w') =>
      ret = 0
      ∧ transaction_ids w'
        = [[52; 55; 49; 49; 0; 0; 0; 0; 0; 0; 0; 0];
           [52; 55; 49; 49; 0; 0; 0; 0; 0; 0; 0; 0]]
    | _ => False
    end.
Proof. vm_compute. by repeat split. Qed.

(** Whatever the digest, a random source that repeats makes the two
    transaction ids of a retried round equal. *)
Lemma repeated_random_repeats_transaction_id `{Platform} context a w realm nonce :
  random_source w (S (random_calls w)) = random_source w (random_calls w) →
  req_transaction_id
    (attempt_request context (cache_challenge realm nonce a)
       (after_attempt context a w))
  = req_transaction_id (attempt_request context a w).
Proof.
  intros Hrand. rewrite !attempt_request_transaction_id. cbn.
  by rewrite Hrand.
Qed.

(** Witness of C2: an immediate success registers the record at address 1
    and returns id 1 (scenario A of the specification). *)
Lemma allocate_registers_on_success_only_witness :
  (2 ≤ 2)%nat
  ∧ ∃ c' p',
      tnet_turn_allocate (H := host64) 2 (Some ctx0) 3 socket_dgram
        (process0 world_success) = Ret (1, Some c', p')
      ∧ ctx_allocations c' = [ptr1]
      ∧ (alloc_active <$> objects p' !! ptr1) = Some true.
Proof.
  split; [lia|].
  destruct (allocate_registers_on_success_only (H := host64) 2 ctx0 3
              socket_dgram (process0 world_success))
    as (_ & ret & a1 & w1 & Hr & id & c' & p' & Ha & _ & Hok & _); [lia|].
  vm_compute in Hr. injection Hr as <- <- <-.
  destruct (Hok eq_refl) as (Hid & Hobj & _ & Hreg).
  rewrite Hid in Ha.
  exists c', p'. split; [exact Ha|]. split; [exact Hreg|].
  change (alloc_active
            <$> objects p' !! new_addr (objects (process0 world_success))
          = Some true).
  rewrite Hobj. reflexivity.
Defined.

(** C4 as stated fails: a Deallocate call on a registered record without a
    nonce, challenged and then left without an answer, fails and leaves the
    realm and nonce of the challenge on the record. *)
Lemma failed_unallocate_keeps_challenge :
  objects (process1 world_challenge_silence) !! ptr1 = Some active0
  ∧ alloc_realm active0 = None
  ∧ alloc_nonce active0 = None
  ∧ match tnet_turn_unallocate (H := host64) 2 (Some ctx1) (Some ptr1)
            (process1 world_challenge_silence) with
    | Ret (res, c', p') =>
      res = -1
      ∧ (alloc_realm <$> objects p' !! ptr1) = Some (Some "example.org")
      ∧ (alloc_nonce <$> objects p' !! ptr1) = Some (Some "abc123")
    | _ => False
    end.
Proof. vm_compute. by repeat split. Qed.

(** Witness of C5: the success that ends the challenged round grants 3600
    seconds, which become the stored timeout. *)
Lemma success_adopts_granted_lifetime_witness :
  TNET_SOCKET_TYPE_IS_DGRAM (alloc_socket_type fresh0) = true
  ∧ ∃ a' w',
      tnet_turn_send_allocate (H := host64) 2 ctx0 fresh0
        (world_challenge_success counting_source) = Ret (0, a', w')
      ∧ alloc_timeout a' = 3600.
Proof.
  split; [reflexivity|].
  destruct (success_adopts_granted_lifetime (H := host64) 2 ctx0 fresh0
              (world_challenge_success counting_source))
    as (ret & a' & w' & Hr & Hsucc); [lia|reflexivity|].
  assert (Hreply : peer (world_challenge_success counting_source) (sent w')
                   = Some (success 3600)).
  { vm_compute in Hr. by injection Hr as _ _ <-. }
  destruct (Hsucc (success 3600) Hreply eq_refl) as [-> Ht];
    [unfold int32_range; cbn; lia|].
  exists a', w'. split; [exact Hr|exact Ht].
Defined.

(** Witness of C7: a round on a stream record returns -1 and the log of the
    transport stays empty. *)
Lemma stream_round_unsupported_transport_witness :
  TNET_SOCKET_TYPE_IS_DGRAM (alloc_socket_type stream0) = false
  ∧ tnet_turn_send_allocate (H := host64) 1 ctx_stream stream0 world_success
    = Ret (-1, stream0,
           (build_request (H := host64) ctx_stream stream0 world_success).2)
  ∧ sent (build_request (H := host64) ctx_stream stream0 world_success).2 = [].
Proof.
  split; [reflexivity|].
  destruct (stream_round_unsupported_transport (H := host64) 1 ctx_stream
              stream0 world_success) as (Hr & Hs & _); [lia|reflexivity|].
  split; [exact Hr|exact Hs].
Defined.

(** Witness of C9: the Deallocate call of the scenario above sends two
    requests, each a refresh request. *)
Lemma request_kind_follows_active_flag_witness :
  alloc_active active0 = true
  ∧ ∃ res c' p' news,
      tnet_turn_unallocate (H := host64) 2 (Some ctx1) (Some ptr1)
        (process1 world_challenge_silence) = Ret (res, c', p')
      ∧ sent (env p') = news
      ∧ news ≠ []
      ∧ Forall (λ x, req_type (x_request x) = stun_refresh_request
                     ∧ TURN_ATTRIBUTE_LIFETIME 0 ∈ req_attributes (x_request x))
          news.
Proof.
  split; [reflexivity|].
  destruct (proj2 (request_kind_follows_active_flag (H := host64))
              2%nat ctx1 ptr1 active0 (process1 world_challenge_silence))
    as (res & c' & p' & news & Hu & Hs & Hne & Hall);
    [lia|reflexivity|reflexivity|].
  exists res, c', p', news. split; [exact Hu|].
  split; [by rewrite Hs, app_nil_r|]. split; [by apply Hne|].
  eapply Forall_impl; [exact Hall|]. intros x [Hk Hl]. split; [exact Hk|].
  by apply Hl.
Defined.

(** Witness of C10: the record the successful Allocate call registers has no
    relay address. *)
Lemma relay_address_never_written_witness :
  ∃ id c' p',
    tnet_turn_allocate (H := host64) 2 (Some ctx0) 3 socket_dgram
      (process0 world_success) = Ret (id, c', p')
    ∧ ∀ a, objects p' !! ptr1 = Some a → alloc_relay_address a = None.
Proof.
  destruct (proj1 (proj2 (proj2 (relay_address_never_written (H := host64))))
              2%nat ctx0 3 socket_dgram (process0 world_success))
    as (id & c' & p' & Ha & Hrelay & _); [lia|].
  exists id, c', p'. split; [exact Ha|exact Hrelay].
Defined.

(** C6 as stated fails: with 64-bit ids, the record created when the static
    counter holds 2^64 - 1 gets id 0, the invalid id, below the id of the
    record created before it. *)
Lemma id_counter_wraps_to_invalid :
  ids_created (H := host64) (2 ^ 64 - 2) [(ctx0, 3); (ctx0, 3)]
  = [2 ^ 64 - 1; 0]
  ∧ alloc_id (created_allocation (H := host64) ctx0 3 (2 ^ 64 - 1))
    = TNET_TURN_INVALID_ALLOCATION_ID (Platform := host64).
Proof. vm_compute. by split. Qed.

(** Witness of C6: three records created from a zeroed counter get the ids
    1, 2 and 3. *)
Lemma ids_increase_until_counter_wraps_witness :
  0 + Z.of_nat (length [(ctx0, 3); (ctx0, 4); (ctx_stream, 5)]) < 2 ^ 64
  ∧ ids_created (H := host64) 0 [(ctx0, 3); (ctx0, 4); (ctx_stream, 5)]
    = [1; 2; 3]
  ∧ NoDup (ids_created (H := host64) 0 [(ctx0, 3); (ctx0, 4); (ctx_stream, 5)]).
Proof.
  assert (Hb : 0 + Z.of_nat (length [(ctx0, 3); (ctx0, 4); (ctx_stream, 5)])
               < 2 ^ 64) by (cbn; lia).
  split; [exact Hb|].
  destruct (proj2 (proj2 (proj2 (ids_increase_until_counter_wraps (H := host64))))
              0 [(ctx0, 3); (ctx0, 4); (ctx_stream, 5)])
    as (Hids & _ & _ & Hnd & _); [lia|exact Hb|].
  split; [rewrite Hids; reflexivity|exact Hnd].
Defined.

(** * Further properties of the round *)

Section RoundOutcome.
Context `{Platform}.

Lemma retry_due_true context a w :
  retry_due context a w = true ↔
  alloc_nonce a = None
  ∧ ∃ r realm nonce,
      attempt_reply context a w = Some r ∧ challenge r = Some (realm, nonce).
Proof.
  unfold retry_due. split.
  - destruct (alloc_nonce a); [done|].
    destruct (attempt_reply context a w) as [r|]; [|done].
    destruct (challenge r) as [[realm nonce]|] eqn:Hc; [|done].
    intros _. split; [done|]. by exists r, realm, nonce.
  - intros (-> & r & realm & nonce & -> & ->). done.
Qed.

Lemma after_attempt_reply context a w :
  peer w (sent (after_attempt context a w)) = attempt_reply context a w.
Proof. done. Qed.

(** An attempt that no other follows. *)
Lemma send_allocate_single fuel context a w :
  TNET_SOCKET_TYPE_IS_DGRAM (alloc_socket_type a) = true →
  retry_due context a w = false →
  tnet_turn_send_allocate (S fuel) context a w =
  Ret (reply_code (attempt_reply context a w),
       adopt_lifetime (attempt_reply context a w) a,
       after_attempt context a w).
Proof.
  intros Hd. rewrite send_allocate_unfold, Hd.
  unfold retry_due, reply_code, adopt_lifetime.
  destruct (attempt_reply context a w) as [r|]; [|done].
  destruct (TNET_STUN_RESPONSE_IS_ERROR r); [|done].
  destruct (challenge r) as [[realm nonce]|]; [|done].
  by destruct (alloc_nonce a).
Qed.

(** A challenged attempt and the one that follows it. *)
Lemma send_allocate_retry fuel context a w r realm nonce :
  TNET_SOCKET_TYPE_IS_DGRAM (alloc_socket_type a) = true →
  alloc_nonce a = None →
  attempt_reply context a w = Some r →
  challenge r = Some (realm, nonce) →
  tnet_turn_send_allocate (S (S fuel)) context a w =
  Ret (reply_code
         (attempt_reply context (cache_challenge realm nonce a)
            (after_attempt context a w)),
       adopt_lifetime
         (attempt_reply context (cache_challenge realm nonce a)
            (after_attempt context a w))
         (cache_challenge realm nonce a),
       after_attempt context (cache_challenge realm nonce a)
         (after_attempt context a w)).
Proof.
  intros Hd Hn Hr Hc. rewrite send_allocate_unfold, Hd, Hr, Hn, Hc.
  destruct (challenge_is_error _ _ _ Hc) as (-> & _).
  by apply send_allocate_single.
Qed.

Lemma adopt_lifetime_timeout reply a b :
  alloc_timeout a = alloc_timeout b →
  alloc_timeout (adopt_lifetime reply a) = alloc_timeout (adopt_lifetime reply b).
Proof.
  intros Ht. unfold adopt_lifetime. destruct reply as [r|]; [|done].
  destruct (TNET_STUN_RESPONSE_IS_ERROR r); [done|].
  by destruct (0 <=? _).
Qed.

Lemma adopt_lifetime_credentials reply a :
  alloc_realm (adopt_lifetime reply a) = alloc_realm a
  ∧ alloc_nonce (adopt_lifetime reply a) = alloc_nonce a.
Proof.
  unfold adopt_lifetime. destruct reply as [r|]; [|done].
  destruct (TNET_STUN_RESPONSE_IS_ERROR r); [done|].
  by destruct (0 <=? _).
Qed.

Lemma adopt_lifetime_failure reply a :
  reply_code reply ≠ 0 → adopt_lifetime reply a = a.
Proof.
  unfold reply_code, adopt_lifetime. destruct reply as [r|]; [|done].
  by destruct (TNET_STUN_RESPONSE_IS_ERROR r).
Qed.

(** The result of a datagram round, read off the reply that ends it. *)
Lemma send_allocate_last_reply fuel context a w :
  (2 ≤ fuel)%nat →
  TNET_SOCKET_TYPE_IS_DGRAM (alloc_socket_type a) = true →
  ∃ ret a' w',
    tnet_turn_send_allocate fuel context a w = Ret (ret, a', w')
    ∧ ret = reply_code (peer w (sent w'))
    ∧ alloc_timeout a'
      = alloc_timeout (adopt_lifetime (peer w (sent w')) a).
Proof.
  intros Hf Hd. rewrite (send_allocate_fuel fuel) by done.
  destruct (retry_due context a w) eqn:Hretry.
  - apply retry_due_true in Hretry
      as (Hn & r & realm & nonce & Hr & Hc).
    rewrite (send_allocate_retry _ _ _ _ r realm nonce) by done.
    do 3 eexists. split; [done|].
    change (peer w) with (peer (after_attempt context a w)).
    rewrite after_attempt_reply.
    split; [done|]. by apply adopt_lifetime_timeout.
  - rewrite send_allocate_single by done.
    do 3 eexists. split; [done|]. by rewrite after_attempt_reply.
Qed.

(** X1: on a datagram record the code a round returns and the timeout it
    leaves are read off the reply that ends the round, the answer of the
    peer to the last request logged: -4 for no reply, 0 for a reply that is
    not an error, -3 for a 401 carrying realm and nonce, -2 for any other
    error; the timeout is the granted lifetime, reduced to 32 bits, when the
    reply is not an error and the lifetime is not negative, and the timeout
    the record came with otherwise. *)
Theorem round_result_follows_last_reply fuel context a w :
  (2 ≤ fuel)%nat →
  TNET_SOCKET_TYPE_IS_DGRAM (alloc_socket_type a) = true →
  ∃ ret a' w',
    tnet_turn_send_allocate fuel context a w = Ret (ret, a', w')
    ∧ ret = reply_code (peer w (sent w'))
    ∧ alloc_timeout a'
      = alloc_timeout (adopt_lifetime (peer w (sent w')) a).
Proof. apply send_allocate_last_reply. Qed.

(** X2: a round on a datagram record hands the transport two requests when
    the record holds no nonce and the first reply is a 401 carrying realm
    and nonce, and one request in every other case; in that other case the
    cached realm and nonce are those the record came with, and the record
    as a whole is unchanged when the round fails. *)
Theorem retry_exactly_when_challenged fuel context a w :
  (2 ≤ fuel)%nat →
  TNET_SOCKET_TYPE_IS_DGRAM (alloc_socket_type a) = true →
  ∃ ret a' w' news,
    tnet_turn_send_allocate fuel context a w = Ret (ret, a', w')
    ∧ sent w' = news ++ sent w
    ∧ length news = (if retry_due context a w then 2 else 1)%nat
    ∧ (retry_due context a w = false →
       news = [attempt_exchange context a w]
       ∧ alloc_realm a' = alloc_realm a
       ∧ alloc_nonce a' = alloc_nonce a
       ∧ (ret ≠ 0 → a' = a)).
Proof.
  intros Hf Hd. rewrite (send_allocate_fuel fuel) by done.
  destruct (retry_due context a w) eqn:Hretry.
  - apply retry_due_true in Hretry
      as (Hn & r & realm & nonce & Hr & Hc).
    rewrite (send_allocate_retry _ _ _ _ r realm nonce) by done.
    do 3 eexists.
    exists [attempt_exchange context (cache_challenge realm nonce a)
              (after_attempt context a w); attempt_exchange context a w].
    split; [done|]. split; [done|]. split; done.
  - rewrite send_allocate_single by done.
    do 3 eexists. exists [attempt_exchange context a w].
    split; [done|]. split; [done|]. split; [done|]. intros _.
    split; [done|].
    destruct (adopt_lifetime_credentials (attempt_reply context a w) a)
      as [-> ->].
    split; [done|]. split; [done|]. apply adopt_lifetime_failure.
Qed.

End RoundOutcome.

(** * What reaches the transport *)

Section Wire.
Context `{Platform}.

Lemma attempt_request_header context a w :
  req_username (attempt_request context a w) = ctx_username context
  ∧ req_password (attempt_request context a w) = ctx_password context
  ∧ req_fingerprint (attempt_request context a w) = ctx_enable_fingerprint context
  ∧ req_integrity (attempt_request context a w) = ctx_enable_integrity context
  ∧ req_dontfrag (attempt_request context a w) = ctx_enable_dontfrag context.
Proof.
  unfold attempt_request, build_request. cbn.
  by destruct (alloc_software a).
Qed.

Lemma attempt_exchange_on_the_wire context a w :
  TNET_SOCKET_TYPE_IS_DGRAM (alloc_socket_type a) = true →
  on_the_wire context a (attempt_exchange context a w).
Proof.
  intros Hd. unfold on_the_wire, attempt_exchange; cbn [x_localFD x_rto x_rc
    x_server x_request].
  destruct (attempt_request_header context a w) as (-> & -> & -> & -> & ->).
  rewrite attempt_request_attributes, attempt_request_transaction_id, Hd.
  do 9 (split; [done|]). split_and!.
  - intros proto. rewrite elem_of_app, !elem_of_cons, elem_of_nil.
    split; [|intros ->; tauto].
    intros [Hs|[Hp|[Hp|[Hp|[]]]]]; simplify_eq; [|done].
    destruct (alloc_software a); [|by apply elem_of_nil in Hs].
    apply list_elem_of_singleton in Hs. done.
  - intros r. rewrite elem_of_app, !elem_of_cons, elem_of_nil.
    split; [|intros ->; tauto].
    intros [Hs|[Hp|[Hp|[Hp|[]]]]]; simplify_eq; [|done].
    destruct (alloc_software a); [|by apply elem_of_nil in Hs].
    apply list_elem_of_singleton in Hs. done.
  - intros s n. rewrite elem_of_app, !elem_of_cons, elem_of_nil. split.
    + intros [Hs|[Hp|[Hp|[Hp|[]]]]]; simplify_eq.
      destruct (alloc_software a); [|by apply elem_of_nil in Hs].
      apply list_elem_of_singleton in Hs. by simplify_eq.
    + intros [-> ->]. left. by apply list_elem_of_singleton.
  - rewrite length_take. lia.
Qed.

(** X3: every request a round hands to the transport goes out on the
    descriptor of the record to the server of the record, with initial
    timeout 500 and 7 retransmissions; it carries the user name, password
    and the three toggles of the context (not the credentials stored on the
    record), asks for UDP as its one requested transport, carries the
    even-port toggle of the context and the software banner of the record
    if it has one, and a transaction id of at most TNET_STUN_TRANSACID_SIZE
    bytes.  A stream record sends nothing, so the TCP value of the
    requested transport never reaches the wire.  Each attempt draws one
    string from the random source. *)
Theorem round_requests_on_the_wire fuel context a w :
  (2 ≤ fuel)%nat →
  ∃ ret a' w' news,
    tnet_turn_send_allocate fuel context a w = Ret (ret, a', w')
    ∧ sent w' = news ++ sent w
    ∧ Forall (on_the_wire context a) news
    ∧ (TNET_SOCKET_TYPE_IS_DGRAM (alloc_socket_type a) = false → news = [])
    ∧ random_calls w'
      = (random_calls w
         + if TNET_SOCKET_TYPE_IS_DGRAM (alloc_socket_type a)
           then length news else 1)%nat.
Proof.
  intros Hf. rewrite (send_allocate_fuel fuel) by done.
  destruct (TNET_SOCKET_TYPE_IS_DGRAM (alloc_socket_type a)) eqn:Hd.
  2:{ rewrite send_allocate_unfold, Hd. do 3 eexists. exists [].
      split; [done|]. split; [done|]. split; [constructor|].
      split; [done|]. cbn. lia. }
  destruct (retry_due context a w) eqn:Hretry.
  - apply retry_due_true in Hretry
      as (Hn & r & realm & nonce & Hr & Hc).
    rewrite (send_allocate_retry _ _ _ _ r realm nonce) by done.
    do 3 eexists.
    exists [attempt_exchange context (cache_challenge realm nonce a)
              (after_attempt context a w); attempt_exchange context a w].
    split; [done|]. split; [done|]. split; [|split; [done|cbn; lia]].
    constructor; [|constructor; [|constructor]].
    + by apply (attempt_exchange_on_the_wire context
                  (cache_challenge realm nonce a)).
    + by apply attempt_exchange_on_the_wire.
  - rewrite send_allocate_single by done.
    do 3 eexists. exists [attempt_exchange context a w].
    split; [done|]. split; [done|]. split; [|split; [done|cbn; lia]].
    constructor; [|constructor]. by apply attempt_exchange_on_the_wire.
Qed.

(** X4: a record that holds a nonce gets one attempt per round, never two;
    that attempt echoes the cached realm and nonce, and the round returns
    the record with the same realm and nonce whatever the peer answers: a
    cached nonce is never replaced, and a 401 that carries a new one ends
    the round with -3. *)
Theorem cached_nonce_is_never_replaced fuel context a w :
  (2 ≤ fuel)%nat →
  is_Some (alloc_nonce a) →
  ∃ ret a' w' news,
    tnet_turn_send_allocate fuel context a w = Ret (ret, a', w')
    ∧ sent w' = news ++ sent w
    ∧ (length news ≤ 1)%nat
    ∧ alloc_realm a' = alloc_realm a
    ∧ alloc_nonce a' = alloc_nonce a
    ∧ Forall (λ x, req_realm (x_request x) = alloc_realm a
                   ∧ req_nonce (x_request x) = alloc_nonce a) news
    ∧ (∀ r realm nonce,
         TNET_SOCKET_TYPE_IS_DGRAM (alloc_socket_type a) = true →
         attempt_reply context a w = Some r →
         challenge r = Some (realm, nonce) → ret = -3 ∧ a' = a).
Proof.
  intros Hf [n Hn]. rewrite (send_allocate_fuel fuel) by done.
  destruct (TNET_SOCKET_TYPE_IS_DGRAM (alloc_socket_type a)) eqn:Hd.
  2:{ rewrite send_allocate_unfold, Hd. do 3 eexists. exists [].
      split; [done|]. split; [done|]. split; [cbn; lia|].
      split; [done|]. split; [done|]. split; [constructor|]. done. }
  assert (Hretry : retry_due context a w = false)
    by (unfold retry_due; by rewrite Hn).
  rewrite send_allocate_single by done.
  do 3 eexists. exists [attempt_exchange context a w].
  destruct (adopt_lifetime_credentials (attempt_reply context a w) a)
    as [Hrl Hnc].
  split; [done|]. split; [done|]. split; [cbn; lia|].
  split; [done|]. split; [done|]. split.
  - constructor; [|constructor]. apply attempt_request_credentials.
  - intros r realm nonce _ Hr Hc. rewrite Hr.
    destruct (challenge_is_error _ _ _ Hc) as (He & _).
    unfold reply_code, adopt_lifetime. by rewrite He, Hc.
Qed.

(** ** Byte order of the lifetime *)

Lemma le_bytes_of_le_bytes a b c d :
  0 ≤ a < 256 → 0 ≤ b < 256 → 0 ≤ c < 256 → 0 ≤ d < 256 →
  le_bytes (of_le_bytes [a; b; c; d]) = [a; b; c; d].
Proof.
  intros Ha Hb Hc Hd. unfold le_bytes, of_le_bytes. cbn [foldr].
  repeat f_equal; Z.div_mod_to_equations; lia.
Qed.

Lemma of_le_bytes_le_bytes x :
  0 ≤ x < 2 ^ 32 → of_le_bytes (le_bytes x) = x.
Proof.
  intros Hx. unfold le_bytes, of_le_bytes. cbn [foldr].
  Z.div_mod_to_equations. lia.
Qed.

Lemma le_bytes_range x :
  Forall (λ b, 0 ≤ b < 256) (le_bytes x).
Proof.
  unfold le_bytes. repeat constructor; Z.div_mod_to_equations; lia.
Qed.

Lemma of_le_bytes_range a b c d :
  0 ≤ a < 256 → 0 ≤ b < 256 → 0 ≤ c < 256 → 0 ≤ d < 256 →
  0 ≤ of_le_bytes [a; b; c; d] < 2 ^ 32.
Proof. intros. unfold of_le_bytes. cbn [foldr]. lia. Qed.

Lemma le_bytes_swapped t :
  le_bytes (of_le_bytes (reverse (le_bytes t))) = reverse (le_bytes t)
  ∧ 0 ≤ of_le_bytes (reverse (le_bytes t)) < 2 ^ 32.
Proof.
  pose proof (le_bytes_range t) as Hb. unfold le_bytes in Hb |- * at 2 3 4.
  apply Forall_cons in Hb as [H0 Hb]. apply Forall_cons in Hb as [H1 Hb].
  apply Forall_cons in Hb as [H2 Hb]. apply Forall_cons in Hb as [H3 _].
  cbn [reverse rev_append].
  split; [by apply le_bytes_of_le_bytes|by apply of_le_bytes_range].
Qed.

(** X5: for a timeout that fits 32 bits, the lifetime attribute of a request
    is a 32-bit word whose bytes in the memory of the host are the bytes of
    the timeout in network order, most significant first; converting the
    word once more gives the timeout back, and on a big-endian host the word
    is the timeout itself. *)
Theorem lifetime_word_holds_network_order_bytes context a w v :
  0 ≤ alloc_timeout a < 2 ^ 32 →
  TURN_ATTRIBUTE_LIFETIME v ∈ req_attributes (build_request context a w).1 →
  host_bytes v = be_bytes (alloc_timeout a)
  ∧ ntohl v = alloc_timeout a
  ∧ 0 ≤ v < 2 ^ 32
  ∧ (host_big_endian = true → v = alloc_timeout a).
Proof.
  intros Ht Hv. apply attempt_request_lifetime in Hv. subst v.
  pose proof (of_le_bytes_le_bytes _ Ht) as Hx.
  destruct (le_bytes_swapped (alloc_timeout a)) as [Hswap Hrange].
  unfold ntohl, host_bytes, of_be_bytes, be_bytes.
  destruct host_big_endian.
  - rewrite !reverse_involutive, !Hx. done.
  - rewrite Hswap, reverse_involutive, Hx. done.
Qed.

End Wire.

(** * Further properties of the lifecycle operations *)

Section LifecycleMore.
Context `{Platform}.

(** A NULL context makes an Allocate call return the invalid id, and a NULL
    context or a NULL allocation makes a Deallocate call return -1; in each
    case no round is run: context and process, the static counter and the
    log of the transport among them, are as before. *)
Lemma null_arguments_change_nothing fuel context localFD socket_type
    allocation p :
  tnet_turn_allocate fuel None localFD socket_type p
    = Ret (TNET_TURN_INVALID_ALLOCATION_ID, None, p)
  ∧ tnet_turn_unallocate fuel None allocation p = Ret (-1, None, p)
  ∧ tnet_turn_unallocate fuel (Some context) None p
    = Ret (-1, Some context, p).
Proof. by split_and!. Qed.

(** X6: as long as the id the constructor assigns is not the invalid id, the
    id an Allocate call returns tells success from failure: it is the
    invalid id exactly when the round failed, in which case context and heap
    are unchanged, and otherwise it is the id of the record now registered,
    live and active at the new address. *)
Theorem allocate_result_tells_success fuel context localFD socket_type p :
  (2 ≤ fuel)%nat →
  TNET_TURN_INVALID_ALLOCATION_ID ≠ wrap_id (unique_id p + 1) →
  ∃ ret a1 w1 id c' p',
    tnet_turn_send_allocate fuel context
      (created_allocation context localFD (unique_id p)) (env p)
      = Ret (ret, a1, w1)
    ∧ tnet_turn_allocate fuel (Some context) localFD socket_type p
      = Ret (id, Some c', p')
    ∧ (id = TNET_TURN_INVALID_ALLOCATION_ID ↔ ret ≠ 0)
    ∧ (id ≠ TNET_TURN_INVALID_ALLOCATION_ID →
       id = wrap_id (unique_id p + 1)
       ∧ new_addr (objects p) ∈ ctx_allocations c'
       ∧ ∃ a, objects p' !! new_addr (objects p) = Some a
              ∧ alloc_id a = id ∧ alloc_active a = true)
    ∧ (id = TNET_TURN_INVALID_ALLOCATION_ID →
       c' = context ∧ objects p' = objects p).
Proof.
  intros Hf Hinv.
  destruct (send_allocate_returns fuel context
              (created_allocation context localFD (unique_id p)) (env p) Hf)
    as (ret & a1 & w1 & Hr).
  exists ret, a1, w1. rewrite allocate_unfold, Hr.
  apply send_allocate_frame in Hr as ((Hid & _) & _).
  change (alloc_id (created_allocation context localFD (unique_id p)))
    with (wrap_id (unique_id p + 1)) in Hid.
  destruct (ret =? 0) eqn:He.
  - apply Z.eqb_eq in He. do 3 eexists. split; [done|]. split; [done|].
    cbn [ctx_allocations set_allocations objects]. rewrite Hid.
    split; [split; [intros Heq; by symmetry in Heq|done]|].
    split; [|intros Heq; by symmetry in Heq]. intros _.
    split; [done|]. split; [apply elem_of_app; right; apply list_elem_of_here|].
    eexists. rewrite lookup_insert_eq. done.
  - apply Z.eqb_neq in He. do 3 eexists. split; [done|]. split; [done|].
    split; [done|]. split; done.
Qed.

(** X7: the socket type argument of an Allocate call has no effect: the
    record takes the socket type of the context.  On a context whose socket
    type is stream every Allocate call fails, whatever the argument: the
    invalid id is returned, nothing reaches the transport, context and heap
    are unchanged, while one id of the static counter and one random string
    are used up. *)
Theorem allocate_ignores_socket_type_argument :
  (∀ fuel nat_context localFD socket_type1 socket_type2 p,
     tnet_turn_allocate fuel nat_context localFD socket_type1 p
     = tnet_turn_allocate fuel nat_context localFD socket_type2 p)
  ∧ (∀ fuel context localFD socket_type p,
       (1 ≤ fuel)%nat →
       ctx_socket_type context = socket_stream →
       ∃ w',
         tnet_turn_allocate fuel (Some context) localFD socket_type p
         = Ret (TNET_TURN_INVALID_ALLOCATION_ID, Some context,
                {| unique_id := wrap_id (unique_id p + 1);
                   objects := objects p; env := w' |})
         ∧ sent w' = sent (env p)
         ∧ random_calls w' = S (random_calls (env p))).
Proof.
  split; [done|].
  intros fuel context localFD socket_type p Hf Hs.
  destruct fuel as [|fuel]; [lia|].
  rewrite allocate_unfold, send_allocate_unfold.
  change (alloc_socket_type (created_allocation context localFD (unique_id p)))
    with (ctx_socket_type context).
  rewrite Hs. cbn [TNET_SOCKET_TYPE_IS_DGRAM Z.eqb].
  eexists. split; [done|]. done.
Qed.

Lemma remove_item_appended (l : list addr) (data : addr) :
  data ∉ l → tsk_list_remove_item_by_data (l ++ [data]) data = l.
Proof.
  induction l as [|x l IH]; intros Hnot; cbn.
  - by rewrite decide_True.
  - apply not_elem_of_cons in Hnot as [Hne Hnot].
    rewrite decide_False by done. by rewrite IH.
Qed.

(** X8: on a context and a heap that satisfy the registry invariant, an
    Allocate call followed by a successful Deallocate call of the record it
    created gives the context back as it was before the two calls; the
    static counter keeps the id that was used, the record stays on the heap
    with its id, still marked active, and every other object is untouched. *)
Theorem allocate_then_unallocate_restores_context fuel context localFD
    socket_type p id c1 p1 c2 p2 :
  registry_ok context p →
  tnet_turn_allocate fuel (Some context) localFD socket_type p
    = Ret (id, Some c1, p1) →
  tnet_turn_unallocate fuel (Some c1) (Some (new_addr (objects p))) p1
    = Ret (0, Some c2, p2) →
  c2 = context
  ∧ unique_id p2 = wrap_id (unique_id p + 1)
  ∧ (∀ q, q ≠ new_addr (objects p) → objects p2 !! q = objects p !! q)
  ∧ ∃ a, objects p2 !! new_addr (objects p) = Some a
         ∧ alloc_id a = id ∧ alloc_active a = true.
Proof.
  intros [Hnd Hlive]. rewrite allocate_unfold.
  destruct (tnet_turn_send_allocate _ _ _ _) as [[[ret a1] w1]| |]; [|done..].
  assert (Hfresh : new_addr (objects p) ∉ ctx_allocations context).
  { intros Hin. destruct (Hlive _ Hin) as (a & Ha & _).
    by rewrite new_addr_fresh in Ha. }
  destruct (ret =? 0); intros [= <- <- <-].
  2:{ unfold tnet_turn_unallocate. cbn [objects].
      by rewrite new_addr_fresh. }
  rewrite (unallocate_unfold _ _ _ (set_active true a1))
    by apply lookup_insert_eq.
  cbn [env objects unique_id ctx_allocations set_allocations].
  destruct (tnet_turn_send_allocate _ _ _ _) as [[[ret2 a2] w2]| |] eqn:Hr2;
    [|done..].
  destruct (ret2 =? 0); [|done]. intros [= <- <-].
  apply send_allocate_frame in Hr2 as (Hn & _).
  destruct Hn as (Hid & _ & _ & _ & _ & _ & _ & _ & Hact). cbn in Hid, Hact.
  rewrite remove_item_appended by done.
  split; [by destruct context|]. split; [done|]. cbn [objects]. split.
  - intros q Hq. by rewrite !lookup_insert_ne.
  - exists a2. by rewrite lookup_insert_eq.
Qed.

(** X9: a Deallocate call never clears the active flag and never changes
    the id of its record.  When it succeeds, the timeout the record had
    before the call is lost: the record keeps the lifetime the last reply
    granted, reduced to 32 bits, or 0 when that lifetime is negative. *)
Theorem successful_unallocate_leaves_record_active fuel context ptr a p :
  (2 ≤ fuel)%nat →
  objects p !! ptr = Some a →
  ∃ res c' p' a',
    tnet_turn_unallocate fuel (Some context) (Some ptr) p = Ret (res, c', p')
    ∧ objects p' !! ptr = Some a'
    ∧ alloc_active a' = alloc_active a
    ∧ alloc_id a' = alloc_id a
    ∧ (res = 0 →
       ∃ r, peer (env p) (sent (env p')) = Some r
            ∧ TNET_STUN_RESPONSE_IS_ERROR r = false
            ∧ alloc_timeout a'
              = if 0 <=? tnet_stun_message_get_lifetime r
                then uint32 (tnet_stun_message_get_lifetime r) else 0).
Proof.
  intros Hf Ha. rewrite (unallocate_unfold _ _ _ a) by done.
  destruct (TNET_SOCKET_TYPE_IS_DGRAM (alloc_socket_type a)) eqn:Hd.
  - destruct (send_allocate_last_reply fuel context (set_timeout 0 a) (env p)
                Hf Hd) as (ret & a1 & w1 & Hr & Hcode & Ht).
    rewrite Hr. apply send_allocate_frame in Hr as (Hn & _).
    destruct Hn as (Hid & _ & _ & _ & _ & _ & _ & _ & Hact).
    cbn in Hid, Hact.
    destruct (ret =? 0) eqn:He; do 4 eexists; (split; [done|]);
      cbn [objects env]; rewrite lookup_insert_eq; (split; [done|]);
      (split; [done|]); (split; [done|]); [|done].
    intros _. apply Z.eqb_eq in He. rewrite He in Hcode.
    unfold reply_code in Hcode. unfold adopt_lifetime in Ht.
    destruct (peer (env p) (sent w1)) as [r|]; [|done].
    exists r. split; [done|].
    destruct (TNET_STUN_RESPONSE_IS_ERROR r);
      [by destruct (challenge r)|].
    split; [done|]. rewrite Ht. by destruct (0 <=? _).
  - destruct fuel as [|fuel]; [lia|].
    rewrite send_allocate_unfold.
    change (alloc_socket_type (set_timeout 0 a)) with (alloc_socket_type a).
    rewrite Hd. cbn [Z.eqb]. do 4 eexists. split; [done|].
    cbn [objects]. rewrite lookup_insert_eq. split; [done|]. done.
Qed.

Lemma remove_item_absent (l : list addr) (data : addr) :
  data ∉ l → tsk_list_remove_item_by_data l data = l.
Proof.
  induction l as [|x l IH]; intros Hnot; cbn; [done|].
  apply not_elem_of_cons in Hnot as [Hne Hnot].
  rewrite decide_False by done. by rewrite IH.
Qed.

(** X11: a Deallocate call on a live record whose address is not in the
    registry (one that was deallocated before, say) still runs its round;
    whether the round succeeds or fails, the context is returned as it
    was. *)
Theorem unallocate_unregistered_keeps_context fuel context ptr a p :
  (2 ≤ fuel)%nat →
  objects p !! ptr = Some a →
  ptr ∉ ctx_allocations context →
  ∃ ret a1 w1 res p',
    tnet_turn_send_allocate fuel context (set_timeout 0 a) (env p)
      = Ret (ret, a1, w1)
    ∧ tnet_turn_unallocate fuel (Some context) (Some ptr) p
      = Ret (res, Some context, p')
    ∧ env p' = w1
    ∧ (res = 0 ↔ ret = 0).
Proof.
  intros Hf Ha Hnot.
  destruct (send_allocate_returns fuel context (set_timeout 0 a) (env p) Hf)
    as (ret & a1 & w1 & Hr).
  exists ret, a1, w1. rewrite (unallocate_unfold _ _ _ a) by done. rewrite Hr.
  destruct (ret =? 0) eqn:He.
  - apply Z.eqb_eq in He. rewrite remove_item_absent by done.
    do 2 eexists. split; [done|]. split; [by destruct context|].
    split; [done|]. done.
  - apply Z.eqb_neq in He. do 2 eexists. split; [done|]. split; [done|].
    split; [done|]. split; [done|]. intros Hz. done.
Qed.

End LifecycleMore.

(** * Invariants of the reachable states *)

Section Reachable.
Context `{Platform}.

(** A property of records that caching a challenge and adopting a lifetime
    keep is kept by a round. *)
Lemma send_allocate_preserves (P : tnet_turn_allocation_t → Prop) :
  (∀ a realm nonce, P a → P (cache_challenge realm nonce a)) →
  (∀ a l, P a → P (set_timeout (uint32 l) a)) →
  ∀ fuel context a w ret a' w',
    tnet_turn_send_allocate fuel context a w = Ret (ret, a', w') →
    P a → P a'.
Proof.
  intros Hcache Hadopt fuel context. induction fuel as [|fuel IH];
    intros a w ret a' w'; [done|].
  rewrite send_allocate_unfold.
  destruct (TNET_SOCKET_TYPE_IS_DGRAM _); [|by intros [= <- <- <-]].
  destruct (attempt_reply _ _ _) as [r|]; [|by intros [= <- <- <-]].
  destruct (TNET_STUN_RESPONSE_IS_ERROR r).
  - destruct (challenge r) as [[realm nonce]|]; [|by intros [= <- <- <-]].
    destruct (alloc_nonce a); [by intros [= <- <- <-]|].
    intros Hr Ha. eapply IH; [exact Hr|]. by apply Hcache.
  - intros [= <- <- <-] Ha. destruct (0 <=? _); [by apply Hadopt|done].
Qed.

Lemma uint32_range x : 0 ≤ uint32 x < 2 ^ 32.
Proof. unfold uint32. apply Z.mod_pos_bound. lia. Qed.

Lemma send_allocate_record_ok fuel context a w ret a' w' :
  tnet_turn_send_allocate fuel context a w = Ret (ret, a', w') →
  record_ok a → record_ok a'.
Proof.
  apply (send_allocate_preserves record_ok).
  - intros b realm nonce (_ & Hrelay & Ht).
    split; [by split|]. by split.
  - intros b l (Hp & Hrelay & _). split; [done|]. split; [done|].
    apply uint32_range.
Qed.

Lemma created_allocation_record_ok context localFD counter :
  record_ok (created_allocation context localFD counter).
Proof. split; [done|]. split; [done|]. cbn. lia. Qed.

(** The heap after a store through the pointer of a live record. *)
Lemma heap_ids_update p ptr a a' w :
  objects p !! ptr = Some a →
  alloc_id a' = alloc_id a →
  heap_ids_ok p →
  heap_ids_ok {| unique_id := unique_id p;
                 objects := <[ptr := a']> (objects p); env := w |}.
Proof.
  intros Ha Hid (Hu & Hbound & Hinj). split_and!; cbn; [done| |].
  - intros q b. rewrite lookup_insert. case_decide; [|apply Hbound].
    intros [= <-]. rewrite Hid. by eapply Hbound.
  - intros q1 q2 b1 b2. rewrite !lookup_insert.
    repeat case_decide; subst; try done.
    + intros [= <-] Hb2 Heq. eapply Hinj; [exact Ha|exact Hb2|congruence].
    + intros Hb1 [= <-] Heq. eapply Hinj; [exact Hb1|exact Ha|congruence].
    + apply Hinj.
Qed.

Lemma heap_records_update p ptr a' w u :
  record_ok a' →
  heap_records_ok p →
  heap_records_ok {| unique_id := u;
                     objects := <[ptr := a']> (objects p); env := w |}.
Proof.
  intros Ha' Hrec q b. cbn. rewrite lookup_insert.
  case_decide; [by intros [= <-]|apply Hrec].
Qed.

(** The heap after a new record has got the next id. *)
Lemma heap_ids_new p ptr a' w :
  objects p !! ptr = None →
  alloc_id a' = unique_id p + 1 →
  heap_ids_ok p →
  heap_ids_ok {| unique_id := unique_id p + 1;
                 objects := <[ptr := a']> (objects p); env := w |}.
Proof.
  intros Hnone Hid (Hu & Hbound & Hinj). split_and!; cbn; [lia| |].
  - intros q b. rewrite lookup_insert. case_decide.
    + intros [= <-]. lia.
    + intros Hb. apply Hbound in Hb. lia.
  - intros q1 q2 b1 b2. rewrite !lookup_insert.
    repeat case_decide; subst; try done.
    + intros [= <-] Hb2 Heq. apply Hbound in Hb2. lia.
    + intros Hb1 [= <-] Heq. apply Hbound in Hb1. lia.
    + apply Hinj.
Qed.

Lemma registry_ok_update context p ptr a a' w u :
  objects p !! ptr = Some a →
  alloc_active a' = alloc_active a →
  registry_ok context p →
  registry_ok context {| unique_id := u;
                         objects := <[ptr := a']> (objects p); env := w |}.
Proof.
  intros Ha Hact [Hnd Hlive]. split; [done|]. intros q Hq. cbn.
  destruct (Hlive q Hq) as (b & Hb & Hbact).
  rewrite lookup_insert. case_decide; subst; [|by exists b].
  exists a'. split; [done|]. simplify_eq. congruence.
Qed.

(** Each call of the lifecycle keeps the invariant. *)
Lemma lifecycle_step_inv fuel s s' :
  lifecycle_step fuel s s' → lifecycle_inv s → lifecycle_inv s'.
Proof.
  intros Hstep. destruct Hstep as
    [context p localFD socket_type id c' p' Hwrap Hcall
    |context p ptr a ret a' w' Ha Hr
    |context p ptr res c' p' Hcall];
    unfold lifecycle_inv; cbn [fst snd]; intros (Hreg & Hids & Hrec).
  - (* Allocate *)
    split; [by eapply allocate_registry_ok|].
    rewrite allocate_unfold in Hcall.
    destruct (tnet_turn_send_allocate _ _ _ _) as [[[ret a1] w1]| |] eqn:Hr;
      [|done..].
    pose proof (send_allocate_record_ok _ _ _ _ _ _ _ Hr
                  (created_allocation_record_ok _ _ _)) as Hok.
    apply send_allocate_frame in Hr as ((Hid & _) & _).
    change (alloc_id (created_allocation context localFD (unique_id p)))
      with (wrap_id (unique_id p + 1)) in Hid.
    assert (Hu : 0 ≤ unique_id p) by apply Hids.
    rewrite wrap_id_small in Hid, Hcall by lia.
    destruct (ret =? 0); injection Hcall as <- <- <-.
    + split.
      * apply heap_ids_new; [apply new_addr_fresh|done|done].
      * apply heap_records_update; [|done].
        destruct Hok as (Hp & Hrelay & Ht). split; [done|]. by split.
    + split; [|done]. destruct Hids as (_ & Hbound & Hinj).
      split_and!; cbn; [lia| |done].
      intros q b Hb. apply Hbound in Hb. lia.
  - (* a round on a live record *)
    pose proof (send_allocate_record_ok _ _ _ _ _ _ _ Hr (Hrec _ _ Ha)) as Hok.
    apply send_allocate_frame in Hr as (Hn & _).
    destruct Hn as (Hid & _ & _ & _ & _ & _ & _ & _ & Hact).
    split_and!.
    + by eapply registry_ok_update.
    + by eapply heap_ids_update.
    + by apply heap_records_update.
  - (* Deallocate *)
    split; [by eapply unallocate_registry_ok|].
    destruct (objects p !! ptr) as [a|] eqn:Ha;
      [|unfold tnet_turn_unallocate in Hcall; by rewrite Ha in Hcall].
    rewrite (unallocate_unfold _ _ _ a) in Hcall by done.
    destruct (tnet_turn_send_allocate _ _ _ _) as [[[ret a1] w1]| |] eqn:Hr;
      [|done..].
    assert (Hok0 : record_ok (set_timeout 0 a)).
    { destruct (Hrec _ _ Ha) as (Hp & Hrelay & _).
      split; [done|]. split; [done|]. cbn. lia. }
    pose proof (send_allocate_record_ok _ _ _ _ _ _ _ Hr Hok0) as Hok.
    apply send_allocate_frame in Hr as (Hn & _).
    destruct Hn as (Hid & _ & _ & _ & _ & _ & _ & _ & Hact).
    cbn in Hid, Hact.
    destruct (ret =? 0); injection Hcall as <- <- <-.
    + split; [by eapply heap_ids_update|by apply heap_records_update].
    + split; [by eapply heap_ids_update|].
      apply heap_records_update; [|done].
      destruct Hok as (Hp & Hrelay & _). split; [done|]. split; [done|].
      apply uint32_range.
Qed.

Lemma lifecycle_rtc_inv fuel s s' :
  rtc (lifecycle_step fuel) s s' → lifecycle_inv s → lifecycle_inv s'.
Proof.
  induction 1 as [|s1 s2 s3 Hstep _ IH]; [done|].
  intros Hinv. apply IH. by eapply lifecycle_step_inv.
Qed.

(** X10: from a context with an empty registry and a process with an empty
    heap, whatever Allocate calls (made before the static counter wraps),
    rounds on live records and Deallocate calls follow and whatever the peer
    answers, the state reached satisfies: the registry holds no address
    twice and every registered address holds a live record marked active;
    every live record has an id between 1 and the static counter and no two
    live records share an id; on every live record realm and nonce are both
    cached or both absent, the relay address is absent and the timeout fits
    32 bits. *)
Theorem reachable_states_keep_invariants fuel context p s :
  ctx_allocations context = [] →
  objects p = ∅ →
  0 ≤ unique_id p →
  rtc (lifecycle_step fuel) (context, p) s →
  registry_ok s.1 s.2 ∧ heap_ids_ok s.2 ∧ heap_records_ok s.2.
Proof.
  intros Hreg Hheap Hu Hrtc.
  apply (lifecycle_rtc_inv fuel (context, p) s Hrtc).
  split_and!; cbn [fst snd].
  - by apply registry_ok_empty.
  - split_and!; [done|intros q a|intros q1 q2 a1 a2];
      by rewrite Hheap, lookup_empty.
  - intros q a. by rewrite Hheap, lookup_empty.
Qed.

End Reachable.

(** * Deallocate and failed calls, observed *)

Section Observed.
Context `{Platform}.

(** C3: a Deallocate call on a registered record runs one round on the
    record with its timeout set to 0 and every other field as it was: every
    request the call sends carries the lifetime 0, and on a datagram record
    at least one is sent.  When the round returns 0 the address of the
    record leaves the registry, and the record is left with the lifetime the
    last reply granted, or with 0 when that lifetime is negative; when the
    round fails the call returns -1, the record has the timeout it had
    before the call, and the registry is as before. *)
Theorem unallocate_saves_and_restores_timeout fuel context ptr a p :
  (2 ≤ fuel)%nat →
  ptr ∈ ctx_allocations context →
  NoDup (ctx_allocations context) →
  objects p !! ptr = Some a →
  0 ≤ alloc_timeout a < 2 ^ 32 →
  ∃ ret a1 w1,
    tnet_turn_send_allocate fuel context (set_timeout 0 a) (env p)
      = Ret (ret, a1, w1)
    ∧ alloc_timeout (set_timeout 0 a) = 0
    ∧ negotiated_only a (set_timeout 0 a)
    ∧ alloc_realm (set_timeout 0 a) = alloc_realm a
    ∧ alloc_nonce (set_timeout 0 a) = alloc_nonce a
    ∧ ∃ res c' p' a' news,
        tnet_turn_unallocate fuel (Some context) (Some ptr) p
          = Ret (res, Some c', p')
        ∧ env p' = w1
        ∧ objects p' !! ptr = Some a'
        ∧ sent (env p') = news ++ sent (env p)
        ∧ (TNET_SOCKET_TYPE_IS_DGRAM (alloc_socket_type a) = true → news ≠ [])
        ∧ Forall (λ x,
            ∀ v, TURN_ATTRIBUTE_LIFETIME v ∈ req_attributes (x_request x)
                 ↔ v = 0) news
        ∧ (ret = 0 →
           res = 0
           ∧ ctx_allocations c'
             = tsk_list_remove_item_by_data (ctx_allocations context) ptr
           ∧ (ptr ∉ ctx_allocations c')
           ∧ (∀ q, q ≠ ptr →
                q ∈ ctx_allocations c' ↔ q ∈ ctx_allocations context)
           ∧ ∃ r, peer (env p) (sent (env p')) = Some r
                  ∧ TNET_STUN_RESPONSE_IS_ERROR r = false
                  ∧ alloc_timeout a'
                    = if 0 <=? tnet_stun_message_get_lifetime r
                      then uint32 (tnet_stun_message_get_lifetime r) else 0)
        ∧ (ret ≠ 0 →
           res = -1
           ∧ objects p' !! ptr = Some (set_timeout (alloc_timeout a) a1)
           ∧ alloc_timeout a' = alloc_timeout a
           ∧ c' = context
           ∧ ptr ∈ ctx_allocations c').
Proof.
  intros Hf Hin Hnd Ha Ht.
  assert (Hround : ∃ ret a1 w1,
    tnet_turn_send_allocate fuel context (set_timeout 0 a) (env p)
      = Ret (ret, a1, w1)
    ∧ (ret = 0 →
       ∃ r, peer (env p) (sent w1) = Some r
            ∧ TNET_STUN_RESPONSE_IS_ERROR r = false
            ∧ alloc_timeout a1
              = if 0 <=? tnet_stun_message_get_lifetime r
                then uint32 (tnet_stun_message_get_lifetime r) else 0)).
  { destruct (TNET_SOCKET_TYPE_IS_DGRAM (alloc_socket_type a)) eqn:Hd.
    - destruct (send_allocate_last_reply fuel context (set_timeout 0 a)
                  (env p) Hf Hd) as (ret & a1 & w1 & Hr & Hcode & Ht1).
      exists ret, a1, w1. split; [done|]. intros Hz. rewrite Hz in Hcode.
      unfold reply_code in Hcode. unfold adopt_lifetime in Ht1.
      destruct (peer (env p) (sent w1)) as [r|]; [|done].
      exists r. split; [done|].
      destruct (TNET_STUN_RESPONSE_IS_ERROR r); [by destruct (challenge r)|].
      split; [done|]. rewrite Ht1. by destruct (0 <=? _).
    - destruct fuel as [|fuel]; [lia|].
      rewrite send_allocate_unfold.
      change (alloc_socket_type (set_timeout 0 a)) with (alloc_socket_type a).
      rewrite Hd. do 3 eexists. split; [done|]. done. }
  destruct Hround as (ret & a1 & w1 & Hr & Hgrant).
  exists ret, a1, w1. split; [done|].
  split; [done|]. split; [done|]. split; [done|]. split; [done|].
  rewrite (unallocate_unfold _ _ _ a) by done. rewrite Hr.
  destruct (send_allocate_log _ _ _ _ _ _ _ Hr) as (news & Hs & Hne & _ & Hall).
  assert (Hzero : Forall (λ x,
            ∀ v, TURN_ATTRIBUTE_LIFETIME v ∈ req_attributes (x_request x)
                 ↔ v = 0) news).
  { eapply Forall_impl; [exact Hall|].
    intros x (a0 & w0 & -> & _ & Ht0) v.
    unfold attempt_exchange; cbn [x_request].
    rewrite attempt_request_lifetime, Ht0.
    change (alloc_timeout (set_timeout 0 a)) with 0. by rewrite ntohl_0. }
  pose proof (send_allocate_frame _ _ _ _ _ _ _ Hr) as (_ & Hkeep & _).
  destruct (ret =? 0) eqn:He.
  - apply Z.eqb_eq in He. do 4 eexists. exists news.
    split; [done|]. cbn [env objects ctx_allocations set_allocations].
    rewrite lookup_insert_eq.
    split; [done|]. split; [done|]. split; [done|]. split; [done|].
    split; [done|]. split; [|done]. intros _.
    split; [done|]. split; [done|].
    split; [by apply remove_item_gone|].
    split; [intros q Hq; by apply remove_item_other|]. by apply Hgrant.
  - apply Z.eqb_neq in He. do 4 eexists. exists news.
    split; [done|]. cbn [env objects ctx_allocations set_allocations].
    rewrite lookup_insert_eq.
    split; [done|]. split; [done|]. split; [done|]. split; [done|].
    split; [done|]. split; [done|]. intros _.
    unfold uint32. rewrite Z.mod_small by lia.
    split; [done|]. split; [done|]. split; [done|]. done.
Qed.

(** A failed round, with the reply that decided what it left on the
    record. *)
Lemma send_allocate_failure_tied fuel context a w :
  (2 ≤ fuel)%nat →
  ∃ ret a' w',
    tnet_turn_send_allocate fuel context a w = Ret (ret, a', w')
    ∧ (ret ≠ 0 →
       (TNET_SOCKET_TYPE_IS_DGRAM (alloc_socket_type a) = true
        ∧ alloc_nonce a = None
        ∧ ∃ r realm nonce,
            attempt_reply context a w = Some r
            ∧ challenge r = Some (realm, nonce)
            ∧ a' = cache_challenge realm nonce a)
       ∨ ((TNET_SOCKET_TYPE_IS_DGRAM (alloc_socket_type a) = false
           ∨ retry_due context a w = false)
          ∧ a' = a)).
Proof.
  intros Hf. rewrite (send_allocate_fuel fuel) by done.
  destruct (TNET_SOCKET_TYPE_IS_DGRAM (alloc_socket_type a)) eqn:Hd.
  2:{ rewrite send_allocate_unfold, Hd. do 3 eexists. split; [done|].
      intros _. right. split; [by left|done]. }
  destruct (retry_due context a w) eqn:Hretry.
  - apply retry_due_true in Hretry
      as (Hn & r & realm & nonce & Hr & Hc).
    rewrite (send_allocate_retry _ _ _ _ r realm nonce) by done.
    do 3 eexists. split; [done|]. intros Hne. left.
    split; [done|]. split; [done|]. exists r, realm, nonce.
    split; [done|]. split; [done|]. by apply adopt_lifetime_failure.
  - rewrite send_allocate_single by done.
    do 3 eexists. split; [done|]. intros Hne. right.
    split; [by right|]. by apply adopt_lifetime_failure.
Qed.

Lemma challenge_kept_cached context sent_as w a r realm nonce :
  alloc_nonce a = None →
  attempt_reply context sent_as w = Some r →
  challenge r = Some (realm, nonce) →
  challenge_kept context sent_as w a (cache_challenge realm nonce a).
Proof.
  intros Hn Hr Hc.
  destruct (challenge_is_error _ _ _ Hc) as (He & Hcode & Hrealm & Hnonce).
  split; [done|]. exists r, realm, nonce.
  do 7 (split; [done|]). split; [by unfold negotiated_only|]. done.
Qed.

(** C4, as the code has it: when a Refresh round or a Deallocate call fails,
    the record is as it was before the call, except in one case: the record
    is on a datagram socket, held no nonce, and the first reply of the round
    was a 401 error carrying realm and nonce.  In that case the realm and
    nonce of that reply are cached on the record and every other field,
    the timeout among them, has its value of before the call. *)
Theorem failure_restores_all_but_cached_challenge :
  (∀ fuel context a w,
     (2 ≤ fuel)%nat →
     ∃ ret a' w',
       tnet_turn_send_allocate fuel context a w = Ret (ret, a', w')
       ∧ (ret ≠ 0 →
          restored_up_to_challenge a a'
          ∧ (TNET_SOCKET_TYPE_IS_DGRAM (alloc_socket_type a) = true →
             retry_due context a w = true →
             challenge_kept context a w a a')
          ∧ (TNET_SOCKET_TYPE_IS_DGRAM (alloc_socket_type a) = false
             ∨ retry_due context a w = false → a' = a)))
  ∧ (∀ fuel context ptr a p,
       (2 ≤ fuel)%nat →
       objects p !! ptr = Some a →
       0 ≤ alloc_timeout a < 2 ^ 32 →
       ∃ res c' p' a',
         tnet_turn_unallocate fuel (Some context) (Some ptr) p
           = Ret (res, c', p')
         ∧ objects p' !! ptr = Some a'
         ∧ (res ≠ 0 →
            restored_up_to_challenge a a' ∧ c' = Some context
            ∧ (TNET_SOCKET_TYPE_IS_DGRAM (alloc_socket_type a) = true →
               retry_due context (set_timeout 0 a) (env p) = true →
               challenge_kept context (set_timeout 0 a) (env p) a a')
            ∧ (TNET_SOCKET_TYPE_IS_DGRAM (alloc_socket_type a) = false
               ∨ retry_due context (set_timeout 0 a) (env p) = false →
               a' = a))).
Proof.
  split.
  - intros fuel context a w Hf.
    destruct (send_allocate_failure_tied fuel context a w Hf)
      as (ret & a' & w' & Hr & Htied).
    exists ret, a', w'. split; [done|]. intros Hne.
    split; [by eapply send_allocate_failure|].
    destruct (Htied Hne)
      as [(Hd & Hn & r & realm & nonce & Hrep & Hc & ->)|[Hcase ->]].
    + split; [intros _ _; by eapply challenge_kept_cached|].
      intros [Hd'|Hretry]; [congruence|].
      assert (retry_due context a w = true); [|congruence].
      apply retry_due_true. split; [done|]. by exists r, realm, nonce.
    + split; [|done]. intros Hd Hretry.
      destruct Hcase; congruence.
  - intros fuel context ptr a p Hf Ha Ht.
    destruct (send_allocate_failure_tied fuel context (set_timeout 0 a)
                (env p) Hf) as (ret & a1 & w1 & Hr & Htied).
    rewrite (unallocate_unfold _ _ _ a) by done. rewrite Hr.
    destruct (ret =? 0) eqn:He; do 4 eexists; (split; [done|]); cbn;
      rewrite lookup_insert_eq; (split; [done|]); [done|].
    intros _. apply Z.eqb_neq in He.
    unfold uint32. rewrite Z.mod_small by lia.
    change (alloc_socket_type (set_timeout 0 a))
      with (alloc_socket_type a) in Htied.
    change (alloc_nonce (set_timeout 0 a)) with (alloc_nonce a) in Htied.
    destruct (Htied He)
      as [(Hd & Hn & r & realm & nonce & Hrep & Hc & ->)|[Hcase ->]].
    + assert (Heq : set_timeout (alloc_timeout a)
                      (cache_challenge realm nonce (set_timeout 0 a))
                    = cache_challenge realm nonce a) by (by destruct a).
      rewrite Heq.
      split; [right; split; [done|]; by exists realm, nonce|].
      split; [done|].
      split; [intros _ _; by eapply challenge_kept_cached|].
      intros [Hd'|Hretry]; [congruence|].
      assert (retry_due context (set_timeout 0 a) (env p) = true);
        [|congruence].
      apply retry_due_true. split; [done|]. by exists r, realm, nonce.
    + rewrite set_timeout_restore.
      split; [by left|]. split; [done|]. split; [|done].
      intros Hd Hretry. destruct Hcase; congruence.
Qed.

End Observed.

(** * Scenarios of the further properties *)

(** Witness of X1: a server error 500 (scenario D of the specification) ends
    the round with -2 and leaves the timeout of 600 seconds. *)
Lemma round_result_follows_last_reply_witness :
  TNET_SOCKET_TYPE_IS_DGRAM (alloc_socket_type fresh0) = true
  ∧ ∃ a' w',
      tnet_turn_send_allocate (H := host64) 2 ctx0 fresh0 world_error
        = Ret (-2, a', w')
      ∧ alloc_timeout a' = 600.
Proof.
  split; [reflexivity|].
  destruct (round_result_follows_last_reply (H := host64) 2 ctx0 fresh0
              world_error) as (ret & a' & w' & Hr & Hcode & Ht);
    [lia|reflexivity|].
  assert (Hreply : peer world_error (sent w') = Some (server_error 500)).
  { vm_compute in Hr. by injection Hr as _ _ <-. }
  rewrite Hreply in Hcode, Ht. subst ret.
  exists a', w'. split; [exact Hr|exact Ht].
Defined.

(** Witness of X2: the same round sends one request and returns the record
    as it was. *)
Lemma retry_exactly_when_challenged_witness :
  retry_due (H := host64) ctx0 fresh0 world_error = false
  ∧ ∃ ret w',
      tnet_turn_send_allocate (H := host64) 2 ctx0 fresh0 world_error
        = Ret (ret, fresh0, w')
      ∧ length (sent w') = 1%nat.
Proof.
  split; [reflexivity|].
  destruct (retry_exactly_when_challenged (H := host64) 2 ctx0 fresh0
              world_error) as (ret & a' & w' & news & Hr & Hs & Hl & Hsingle);
    [lia|reflexivity|].
  destruct (Hsingle eq_refl) as (Hn & _ & _ & Hsame).
  assert (Hret : ret ≠ 0).
  { vm_compute in Hr. injection Hr as <- _ _. lia. }
  rewrite (Hsame Hret) in Hr.
  exists ret, w'. split; [exact Hr|]. rewrite Hs, Hn. reflexivity.
Defined.

(** Witness of X3: the challenged round of a fresh record logs two
    exchanges, both with initial timeout 500 and 7 retransmissions. *)
Lemma round_requests_on_the_wire_witness :
  (2 ≤ 2)%nat
  ∧ ∃ ret a' w',
      tnet_turn_send_allocate (H := host64) 2 ctx0 fresh0
        (world_challenge_success counting_source) = Ret (ret, a', w')
      ∧ Forall (λ x, x_rto x = 500 ∧ x_rc x = 7) (sent w')
      ∧ random_calls w' = 2%nat.
Proof.
  split; [lia|].
  destruct (round_requests_on_the_wire (H := host64) 2 ctx0 fresh0
              (world_challenge_success counting_source))
    as (ret & a' & w' & news & Hr & Hs & Hall & _ & Hrand); [lia|].
  exists ret, a', w'. split; [exact Hr|].
  assert (Hlen : length news = 2%nat).
  { vm_compute in Hr. injection Hr as _ _ <-.
    apply (f_equal length) in Hs. rewrite length_app in Hs. cbn in Hs. lia. }
  split.
  - rewrite Hs, app_nil_r. eapply Forall_impl; [exact Hall|].
    intros x (_ & Hrto & Hrc & _). by split.
  - rewrite Hrand, Hlen. reflexivity.
Defined.

(** Witness of X4: a record with a cached nonce, answered with a 401 that
    carries another nonce, fails with -3 and keeps the nonce it had. *)
Lemma cached_nonce_is_never_replaced_witness :
  is_Some (alloc_nonce cached0)
  ∧ ∃ w',
      tnet_turn_send_allocate (H := host64) 2 ctx0 cached0 world_new_nonce
        = Ret (-3, cached0, w').
Proof.
  assert (Hsome : is_Some (alloc_nonce cached0)) by (by eexists).
  split; [exact Hsome|].
  destruct (cached_nonce_is_never_replaced (H := host64) 2 ctx0 cached0
              world_new_nonce)
    as (ret & a' & w' & news & Hr & _ & _ & _ & _ & _ & Hstale);
    [lia|exact Hsome|].
  destruct (Hstale (unauthorized "example.org" "def456") "example.org"
              "def456" eq_refl eq_refl eq_refl) as [-> ->].
  exists w'. exact Hr.
Defined.

(** Witness of X5: on the little-endian host the lifetime word of a fresh
    record, whose timeout is 600 = 0x258, is 0x58020000, which lies in
    memory as the bytes 0, 0, 2, 88. *)
Lemma lifetime_word_holds_network_order_bytes_witness :
  0 ≤ alloc_timeout fresh0 < 2 ^ 32
  ∧ TURN_ATTRIBUTE_LIFETIME 1476526080
      ∈ req_attributes (build_request (H := host64) ctx0 fresh0 world_success).1
  ∧ host_bytes (H := host64) 1476526080 = [0; 0; 2; 88]
  ∧ ntohl (H := host64) 1476526080 = 600.
Proof.
  assert (Ht : 0 ≤ alloc_timeout fresh0 < 2 ^ 32) by (cbn; lia).
  assert (Hin : TURN_ATTRIBUTE_LIFETIME 1476526080
      ∈ req_attributes (build_request (H := host64) ctx0 fresh0 world_success).1).
  { vm_compute. do 2 apply list_elem_of_further. apply list_elem_of_here. }
  split; [exact Ht|]. split; [exact Hin|].
  destruct (lifetime_word_holds_network_order_bytes (H := host64) ctx0 fresh0
              world_success 1476526080 Ht Hin) as (Hbytes & Hback & _).
  split; [exact Hbytes|exact Hback].
Defined.

(** Witness of X6: the successful Allocate call of scenario A returns id 1,
    which is not the invalid id. *)
Lemma allocate_result_tells_success_witness :
  TNET_TURN_INVALID_ALLOCATION_ID (Platform := host64)
    ≠ wrap_id (H := host64) (unique_id (process0 world_success) + 1)
  ∧ ∃ c' p',
      tnet_turn_allocate (H := host64) 2 (Some ctx0) 3 socket_dgram
        (process0 world_success) = Ret (1, Some c', p')
      ∧ ptr1 ∈ ctx_allocations c'.
Proof.
  assert (Hne : TNET_TURN_INVALID_ALLOCATION_ID (Platform := host64)
    ≠ wrap_id (H := host64) (unique_id (process0 world_success) + 1))
    by (vm_compute; discriminate).
  split; [exact Hne|].
  destruct (allocate_result_tells_success (H := host64) 2 ctx0 3 socket_dgram
              (process0 world_success))
    as (ret & a1 & w1 & id & c' & p' & Hr & Ha & Hiff & Hok & _);
    [lia|exact Hne|].
  assert (Hret : ret = 0).
  { vm_compute in Hr. by injection Hr as <- _ _. }
  assert (Hid : id ≠ TNET_TURN_INVALID_ALLOCATION_ID (Platform := host64)).
  { intros Heq. apply Hiff in Heq. done. }
  destruct (Hok Hid) as (Hidv & Hin & _).
  rewrite Hidv in Ha. exists c', p'. split; [exact Ha|exact Hin].
Defined.

(** Witness of X7: on the stream context an Allocate call asked for a
    datagram socket fails and still advances the static counter. *)
Lemma allocate_ignores_socket_type_argument_witness :
  ctx_socket_type ctx_stream = socket_stream
  ∧ ∃ w',
      tnet_turn_allocate (H := host64) 2 (Some ctx_stream) 3 socket_dgram
        (process0 world_success)
      = Ret (0, Some ctx_stream, {| unique_id := 1; objects := ∅; env := w' |})
      ∧ sent w' = [].
Proof.
  split; [reflexivity|].
  destruct (proj2 (allocate_ignores_socket_type_argument (H := host64))
              2%nat ctx_stream 3 socket_dgram (process0 world_success))
    as (w' & Ha & Hs & _); [lia|reflexivity|].
  exists w'. split; [exact Ha|exact Hs].
Defined.

(** Witness of X8: an Allocate call answered with a success, then a
    Deallocate call of the new record answered with a success, leave the
    context with its empty registry. *)
Lemma allocate_then_unallocate_restores_context_witness :
  registry_ok ctx0 (process0 world_success_then_release)
  ∧ ∃ id c1 p1 c2 p2,
      tnet_turn_allocate (H := host64) 2 (Some ctx0) 3 socket_dgram
        (process0 world_success_then_release) = Ret (id, Some c1, p1)
      ∧ tnet_turn_unallocate (H := host64) 2 (Some c1)
          (Some (new_addr (objects (process0 world_success_then_release)))) p1
        = Ret (0, Some c2, p2)
      ∧ c2 = ctx0.
Proof.
  assert (Hreg : registry_ok ctx0 (process0 world_success_then_release))
    by (by apply registry_ok_empty).
  split; [exact Hreg|].
  eexists _, _, _, _, _.
  split; [reflexivity|]. split; [reflexivity|].
  eapply (allocate_then_unallocate_restores_context (H := host64) 2 ctx0 3
            socket_dgram (process0 world_success_then_release));
    [exact Hreg|reflexivity|reflexivity].
Defined.

(** Witness of X9: the registered record released with a success that grants
    the lifetime 0 stays active, with timeout 0. *)
Lemma successful_unallocate_leaves_record_active_witness :
  objects (process1 world_release) !! ptr1 = Some active0
  ∧ ∃ c' p' a',
      tnet_turn_unallocate (H := host64) 2 (Some ctx1) (Some ptr1)
        (process1 world_release) = Ret (0, c', p')
      ∧ objects p' !! ptr1 = Some a'
      ∧ alloc_active a' = true
      ∧ alloc_timeout a' = 0.
Proof.
  split; [reflexivity|].
  destruct (successful_unallocate_leaves_record_active (H := host64) 2 ctx1
              ptr1 active0 (process1 world_release))
    as (res & c' & p' & a' & Hu & Hobj & Hact & _ & Hok); [lia|reflexivity|].
  assert (Hres : res = 0 ∧ peer (env (process1 world_release)) (sent (env p'))
                           = Some (success 0)).
  { vm_compute in Hu. by injection Hu as <- _ <-. }
  destruct Hres as [-> Hreply].
  destruct (Hok eq_refl) as (r & Hr & _ & Ht).
  rewrite Hreply in Hr. injection Hr as <-.
  exists c', p', a'. split; [exact Hu|]. split; [exact Hobj|].
  split; [exact Hact|exact Ht].
Defined.

(** Witness of X10: the state after the successful Allocate call of
    scenario A is reachable and satisfies the invariants. *)
Lemma reachable_states_keep_invariants_witness :
  ctx_allocations ctx0 = []
  ∧ objects (process0 world_success) = ∅
  ∧ ∃ s, rtc (lifecycle_step (H := host64) 2) (ctx0, process0 world_success) s
         ∧ ctx_allocations s.1 = [ptr1]
         ∧ registry_ok s.1 s.2 ∧ heap_ids_ok s.2 ∧ heap_records_ok s.2.
Proof.
  split; [reflexivity|]. split; [reflexivity|].
  assert (Hstep : ∃ s, lifecycle_step (H := host64) 2
                         (ctx0, process0 world_success) s
                       ∧ ctx_allocations s.1 = [ptr1]).
  { eexists (_, _). split.
    - eapply (step_allocate (H := host64) 2 ctx0 (process0 world_success) 3
                socket_dgram); [vm_compute; reflexivity|reflexivity].
    - reflexivity. }
  destruct Hstep as (s & Hstep & Hreg).
  exists s. split; [by apply rtc_once|]. split; [exact Hreg|].
  apply (reachable_states_keep_invariants (H := host64) 2 ctx0
           (process0 world_success) s); [reflexivity|reflexivity|cbn; lia|].
  by apply rtc_once.
Defined.

(** Witness of X11: the live record of the scenarios, released through the
    context with the empty registry, gets its round and the context comes
    back unchanged. *)
Lemma unallocate_unregistered_keeps_context_witness :
  objects (process1 world_release) !! ptr1 = Some active0
  ∧ (ptr1 ∉ ctx_allocations ctx0)
  ∧ ∃ p',
      tnet_turn_unallocate (H := host64) 2 (Some ctx0) (Some ptr1)
        (process1 world_release) = Ret (0, Some ctx0, p')
      ∧ length (sent (env p')) = 1%nat.
Proof.
  assert (Hnot : ptr1 ∉ ctx_allocations ctx0) by apply not_elem_of_nil.
  split; [reflexivity|]. split; [exact Hnot|].
  destruct (unallocate_unregistered_keeps_context (H := host64) 2 ctx0 ptr1
              active0 (process1 world_release))
    as (ret & a1 & w1 & res & p' & Hr & Hu & Henv & Hiff);
    [lia|reflexivity|exact Hnot|].
  assert (Hret : ret = 0 ∧ length (sent w1) = 1%nat).
  { vm_compute in Hr. by injection Hr as <- _ <-. }
  destruct Hret as [Hret Hlen]. apply Hiff in Hret. subst res.
  exists p'. split; [exact Hu|]. by rewrite Henv.
Defined.

(** Witness of C3, on both paths.  The registered record has the timeout
    600.  Released with a challenge and then no answer, the call fails with
    -1, both requests it sent carry the lifetime 0, and the record is left
    registered with the timeout 600.  Released with a success that grants
    no lifetime, the call returns 0, the address leaves the registry and the
    record is left with the timeout 0. *)
Lemma unallocate_saves_and_restores_timeout_witness :
  ptr1 ∈ ctx_allocations ctx1
  ∧ objects (process1 world_challenge_silence) !! ptr1 = Some active0
  ∧ alloc_timeout active0 = 600
  ∧ (∃ c' p' a',
       tnet_turn_unallocate (H := host64) 2 (Some ctx1) (Some ptr1)
         (process1 world_challenge_silence) = Ret (-1, Some c', p')
       ∧ objects p' !! ptr1 = Some a'
       ∧ alloc_timeout a' = 600
       ∧ ptr1 ∈ ctx_allocations c'
       ∧ length (sent (env p')) = 2%nat
       ∧ Forall (λ x, TURN_ATTRIBUTE_LIFETIME 0
                        ∈ req_attributes (x_request x)) (sent (env p')))
  ∧ (∃ c' p' a',
       tnet_turn_unallocate (H := host64) 2 (Some ctx1) (Some ptr1)
         (process1 world_release_bare) = Ret (0, Some c', p')
       ∧ objects p' !! ptr1 = Some a'
       ∧ alloc_timeout a' = 0
       ∧ (ptr1 ∉ ctx_allocations c')).
Proof.
  assert (Hin : ptr1 ∈ ctx_allocations ctx1) by apply list_elem_of_here.
  split; [exact Hin|]. split; [reflexivity|]. split; [reflexivity|]. split.
  - destruct (unallocate_saves_and_restores_timeout (H := host64) 2 ctx1
                ptr1 active0 (process1 world_challenge_silence))
      as (ret & a1 & w1 & Hr & _ & _ & _ & _ & res & c' & p' & a' & news
          & Hu & Henv & Hobj & Hs & _ & Hzero & _ & Hfail);
      [lia|exact Hin|apply NoDup_singleton|reflexivity|cbn; lia|].
    assert (Hret : ret = -4 ∧ length (sent w1) = 2%nat).
    { vm_compute in Hr. by injection Hr as <- _ <-. }
    destruct Hret as [Hret Hlen].
    destruct Hfail as (-> & _ & Ht & -> & Hreg); [lia|].
    exists ctx1, p', a'. split; [exact Hu|]. split; [exact Hobj|].
    split; [exact Ht|]. split; [exact Hreg|].
    split; [by rewrite Henv|].
    rewrite Hs, app_nil_r. eapply Forall_impl; [exact Hzero|].
    intros x Hx. by apply Hx.
  - destruct (unallocate_saves_and_restores_timeout (H := host64) 2 ctx1
                ptr1 active0 (process1 world_release_bare))
      as (ret & a1 & w1 & Hr & _ & _ & _ & _ & res & c' & p' & a' & news
          & Hu & Henv & Hobj & _ & _ & _ & Hok & _);
      [lia|exact Hin|apply NoDup_singleton|reflexivity|cbn; lia|].
    assert (Hret : ret = 0
                   ∧ peer (env (process1 world_release_bare)) (sent w1)
                     = Some (success (-1))).
    { vm_compute in Hr. by injection Hr as <- _ <-. }
    destruct Hret as [Hret Hreply].
    destruct (Hok Hret) as (-> & _ & Hgone & _ & r & Hrep & _ & Ht).
    rewrite Henv, Hreply in Hrep. injection Hrep as <-.
    exists c', p', a'. split; [exact Hu|]. split; [exact Hobj|].
    split; [exact Ht|exact Hgone].
Defined.

(** Witness of C4: the Deallocate call that is challenged and then gets no
    answer fails, and the record is left with the realm and the nonce of the
    401 it received, in that order, its timeout 600 and its other fields. *)
Lemma failure_restores_all_but_cached_challenge_witness :
  retry_due (H := host64) ctx1 (set_timeout 0 active0)
    (env (process1 world_challenge_silence)) = true
  ∧ ∃ c' p' a',
      tnet_turn_unallocate (H := host64) 2 (Some ctx1) (Some ptr1)
        (process1 world_challenge_silence) = Ret (-1, c', p')
      ∧ objects p' !! ptr1 = Some a'
      ∧ alloc_realm a' = Some "example.org"
      ∧ alloc_nonce a' = Some "abc123"
      ∧ alloc_timeout a' = 600
      ∧ negotiated_only active0 a'.
Proof.
  split; [reflexivity|].
  destruct (proj2 (failure_restores_all_but_cached_challenge (H := host64))
              2%nat ctx1 ptr1 active0 (process1 world_challenge_silence))
    as (res & c' & p' & a' & Hu & Hobj & Hfail);
    [lia|reflexivity|cbn; lia|].
  assert (Hres : res = -1).
  { vm_compute in Hu. by injection Hu as <- _ _. }
  subst res. exists c', p', a'. split; [exact Hu|]. split; [exact Hobj|].
  destruct Hfail as (_ & _ & Hkept & _); [lia|].
  destruct (Hkept eq_refl eq_refl)
    as (_ & r & realm & nonce & Hrep & _ & _ & Hrealm & Hnonce & Hrl & Hnc
        & Hneg & Ht & _).
  vm_compute in Hrep. injection Hrep as <-.
  cbn in Hrealm, Hnonce. injection Hrealm as <-. injection Hnonce as <-.
  split; [exact Hrl|]. split; [exact Hnc|]. split; [exact Ht|exact Hneg].
Defined.
